(** * netfilter.h: the cgo glue of go-netfilter-queue

    A shallow embedding of [src/netfilter.h]: the process-wide [stop] flag,
    the per-packet bridge [nf_callback], the binding helpers [CreateQueue]
    and [SetQueueFailOpen], the shutdown request [stop_reading_packets] and
    the blocking receive loop [Run].

    The header is glue between three external parties: the kernel (through
    [setsockopt] and [recv]), libnetfilter_queue (through [nfq_*]) and the Go
    side (through [go_callback]).  The C code is modelled in a small monad
    over the process state; every call that leaves the header is logged in
    a chronological trace, and what the outside world answers is supplied by
    an [environment] and by a script of [recv] replies. *)

From Stdlib Require Import ZArith List Lia Bool.
From Stdlib.Strings Require Import Byte.
Import ListNotations.
Local Open Scope Z_scope.

(** ** Platform: integer widths and byte order *)

Inductive endianness : Type := LittleEndian | BigEndian.

(** The two data models Linux runs on; they fix the width of [uintptr_t]. *)
Inductive data_model : Type := ILP32 | LP64.

Definition uintptr_bits (m : data_model) : Z :=
  match m with ILP32 => 32 | LP64 => 64 end.

(** Conversions to unsigned types wrap around. *)
Definition to_uint8 (x : Z) : Z := x mod 2 ^ 8.
Definition to_uint32 (x : Z) : Z := x mod 2 ^ 32.
Definition to_uintptr (m : data_model) (x : Z) : Z := x mod 2 ^ uintptr_bits m.

(** A void pointer is its address; the casts between it and [uintptr_t]
    keep the value. *)
Definition voidptr : Type := Z.
Definition uintptr_to_voidptr (u : Z) : voidptr := u.
Definition voidptr_to_uintptr (m : data_model) (p : voidptr) : Z := to_uintptr m p.

Definition byte_val (b : byte) : Z := Z.of_N (Byte.to_N b).

(** A [__be32] field as it lies in memory: [w0] at the lowest address, which
    in network byte order is the most significant byte. *)
Record be32 : Type := mk_be32 { w0 : byte; w1 : byte; w2 : byte; w3 : byte }.

(** The number a [__be32] stands for on the wire. *)
Definition be32_value (w : be32) : Z :=
  byte_val (w0 w) * 2 ^ 24 + byte_val (w1 w) * 2 ^ 16
  + byte_val (w2 w) * 2 ^ 8 + byte_val (w3 w).

(** Reading the field as a plain 32-bit integer, as [ph->packet_id] does. *)
Definition load_u32 (e : endianness) (w : be32) : Z :=
  match e with
  | BigEndian => be32_value w
  | LittleEndian =>
      byte_val (w0 w) + byte_val (w1 w) * 2 ^ 8
      + byte_val (w2 w) * 2 ^ 16 + byte_val (w3 w) * 2 ^ 24
  end.

(** Byte [k] (0 = least significant) of a 32-bit value. *)
Definition byte_of (x : Z) (k : Z) : Z := (x / 2 ^ (8 * k)) mod 2 ^ 8.

Definition bswap_32 (x : Z) : Z :=
  byte_of x 0 * 2 ^ 24 + byte_of x 1 * 2 ^ 16 + byte_of x 2 * 2 ^ 8 + byte_of x 3.

(** libc's [ntohl]: the identity on a big-endian host, a byte swap on a
    little-endian one. *)
Definition ntohl (e : endianness) (x : Z) : Z :=
  match e with BigEndian => x | LittleEndian => bswap_32 x end.

(** ** Constants of the Linux and libnetfilter_queue headers *)

Definition SOL_NETLINK : Z := 270.
Definition NETLINK_NO_ENOBUFS : Z := 5.
Definition NFQA_CFG_F_FAIL_OPEN : Z := 1.
Definition ENODEV : Z := 19.
Definition sizeof_int : Z := 4.
(** [sizeof(buf)] for [char buf[4096]] in [Run]. *)
Definition sizeof_buf : Z := 4096.

(** ** Data of libnetfilter_queue *)

(** [struct nfqnl_msg_packet_hdr]. *)
Record nfqnl_msg_packet_hdr : Type := mk_packet_hdr {
  packet_id : be32;
  hw_protocol : byte * byte;
  hook : byte
}.

(** A pointer to payload bytes; [None] is [NULL]. *)
Definition data_ptr : Type := option (list byte).
Definition NULL : data_ptr := None.

(** [struct nfq_data]: the attributes of one decoded notification.  Either
    attribute may be missing from what the kernel sent. *)
Record nfq_data : Type := mk_nfq_data {
  attr_packet_hdr : option nfqnl_msg_packet_hdr;
  attr_payload : option (list byte)
}.

(** [struct nfq_q_handle]: the kernel queue number of a binding and the
    data token registered with it. *)
Record nfq_q_handle : Type := mk_qh {
  qh_id : Z;
  qh_data : voidptr
}.

(** [struct nfq_handle]: the list of bindings, newest first. *)
Definition nfq_handle : Type := list nfq_q_handle.

(** One notification inside a received netlink buffer: the queue number it
    was delivered on and its attributes. *)
Record nfq_msg : Type := mk_msg {
  msg_queue : Z;
  msg_data : nfq_data
}.

(** ** The outside world *)

(** The arguments of one [go_callback] call. *)
Record go_args : Type := mk_go_args {
  ga_id : Z;
  ga_data : data_ptr;
  ga_len : Z;
  ga_idx : Z;
  ga_qh : nfq_q_handle
}.

(** Every call that leaves the header.  [EvSetVerdict] stands for
    [nfq_set_verdict], which is part of the queue handle API although the
    header never calls it. *)
Inductive event : Type :=
| EvSetsockopt (fd level optname optval optlen : Z)
| EvRecv (fd len flags : Z)
| EvHandlePacket (len : Z)
| EvGetMsgPacketHdr (nfa : nfq_data)
| EvGetPayload (nfa : nfq_data)
| EvGoCallback (a : go_args)
| EvCreateQueue (num : Z) (data : voidptr)
| EvSetQueueFlags (qh : nfq_q_handle) (mask flags : Z)
| EvSetVerdict (id verdict : Z).

(** What the Go side does to the C state while [go_callback] runs.  [stop]
    is a [static] variable of the header, so the only way for code outside of
    it to touch the flag is to call [stop_reading_packets]; [errno] may be
    left at any value. *)
Record go_effect : Type := mk_go_effect {
  ge_stop : bool;
  ge_errno : option Z
}.

(** What one [recv] call returns. *)
Inductive recv_reply : Type :=
| RecvData (n : positive) (msgs : list nfq_msg)
| RecvClosed
| RecvError (e : positive).

(** One blocking [recv]: its reply, and whether another thread or a signal
    handler called [stop_reading_packets] while the loop was blocked in it. *)
Record recv_step : Type := mk_recv_step {
  rs_reply : recv_reply;
  rs_async_stop : bool
}.

Record environment : Type := mk_env {
  host_endian : endianness;
  host_model : data_model;
  (** the external Go function, given the trace so far and its arguments *)
  go_reaction : list event -> go_args -> go_effect;
  (** [setsockopt]: [None] on success, [Some e] when it fails with errno [e] *)
  setsockopt_reply : option Z;
  (** the kernel's answer to a bind request for a queue number *)
  bind_reply : Z -> option Z;
  (** the kernel's answer to a queue flags request *)
  flags_reply : option Z
}.

(** ** Process state and the monad of the C code *)

Record State : Type := mk_state {
  stop : Z;              (* static uint8_t stop = 0; *)
  errno : Z;
  trace : list event
}.

Definition initial_state : State := {| stop := 0; errno := 0; trace := [] |}.

(** A computation finishes with a value, crashes (a [NULL] dereference), or
    blocks for ever in [recv]. *)
Inductive outcome (A : Type) : Type :=
| Done (a : A)
| Crashed
| Blocked.
Arguments Done {A} a.
Arguments Crashed {A}.
Arguments Blocked {A}.

Definition M (A : Type) : Type := State -> outcome A * State.

Definition ret {A} (a : A) : M A := fun s => (Done a, s).

Definition bind {A B} (m : M A) (f : A -> M B) : M B :=
  fun s =>
    match m s with
    | (Done a, s') => f a s'
    | (Crashed, s') => (Crashed, s')
    | (Blocked, s') => (Blocked, s')
    end.

Definition crash {A} : M A := fun s => (Crashed, s).
Definition block {A} : M A := fun s => (Blocked, s).

Declare Scope c_scope.
Delimit Scope c_scope with C.
Notation "x <- m ;; k" := (bind m (fun x => k))
  (at level 61, m at next level, right associativity) : c_scope.
Notation "m ;; k" := (bind m (fun _ => k))
  (at level 61, right associativity) : c_scope.
Local Open Scope c_scope.

Definition get_stop : M Z := fun s => (Done (stop s), s).
Definition get_errno : M Z := fun s => (Done (errno s), s).
Definition get_trace : M (list event) := fun s => (Done (trace s), s).

Definition set_stop (v : Z) : M unit :=
  fun s => (Done tt, {| stop := to_uint8 v; errno := errno s; trace := trace s |}).
Definition set_errno (e : Z) : M unit :=
  fun s => (Done tt, {| stop := stop s; errno := e; trace := trace s |}).
Definition log (ev : event) : M unit :=
  fun s => (Done tt, {| stop := stop s; errno := errno s; trace := trace s ++ [ev] |}).

(** [static inline void stop_reading_packets() { stop = 1; }] *)
Definition stop_reading_packets : M unit := set_stop 1.

Section Glue.

Variable env : environment.

(** ** External functions *)

(** [nfq_get_msg_packet_hdr] of libnetfilter_queue: the header attribute of
    the notification, or [NULL] when the kernel sent none. *)
Definition nfq_get_msg_packet_hdr (nfa : nfq_data) : M (option nfqnl_msg_packet_hdr) :=
  log (EvGetMsgPacketHdr nfa) ;;
  ret (attr_packet_hdr nfa).

(** [nfq_get_payload(nfad, &data)] of libnetfilter_queue: stores the address
    of the payload attribute in [*data] and returns its length; when the
    attribute is missing it stores [NULL] and returns -1.  The second
    component of the result is the new value of [*data]. *)
Definition nfq_get_payload (nfa : nfq_data) (data : data_ptr) : M (Z * data_ptr) :=
  log (EvGetPayload nfa) ;;
  match attr_payload nfa with
  | Some bytes => ret (Z.of_nat (length bytes), Some bytes)
  | None => ret (-1, NULL)
  end.

(** Modelled from the spec: [go_callback] is the external decision logic,
    exported by the Go side of the repository; the header only declares it.
    It is invoked synchronously with (packet id, payload bytes, length,
    binding index, queue handle) and returns nothing.  The call is logged,
    then the Go side has its effect on the C state. *)
Definition go_callback (id : Z) (data : data_ptr) (len : Z) (idx : Z)
    (qh : nfq_q_handle) : M unit :=
  let a := {| ga_id := id; ga_data := data; ga_len := len; ga_idx := idx; ga_qh := qh |} in
  tr <- get_trace ;;
  log (EvGoCallback a) ;;
  (if ge_stop (go_reaction env tr a) then stop_reading_packets else ret tt) ;;
  match ge_errno (go_reaction env tr a) with
  | Some e => set_errno e
  | None => ret tt
  end.

(** ** The header *)

(** [nf_callback], lines 42-61.  [nfmsg] is not used by the function and is
    left out. *)
Definition nf_callback (qh : nfq_q_handle) (nfa : nfq_data) (cb_func : voidptr) : M Z :=
  st <- get_stop ;;
  if negb (st =? 0) then ret (-1)
  else
    let id := to_uint32 (-1) in
    let ph : option nfqnl_msg_packet_hdr := None in
    let buffer := NULL in
    let ret_ := 0 in
    ph <- nfq_get_msg_packet_hdr nfa ;;
    match ph with
    | None => crash                      (* ph->packet_id with ph == NULL *)
    | Some hdr =>
        let id := ntohl (host_endian env) (load_u32 (host_endian env) (packet_id hdr)) in
        r <- nfq_get_payload nfa buffer ;;
        let '(ret_, buffer) := r in
        let idx := to_uint32 (voidptr_to_uintptr (host_model env) cb_func) in
        go_callback id buffer ret_ idx qh ;;
        ret 0
    end.

(** [find_qh] of libnetfilter_queue: the binding for a queue number. *)
Fixpoint find_qh (h : nfq_handle) (num : Z) : option nfq_q_handle :=
  match h with
  | [] => None
  | qh :: h' => if qh_id qh =? num then Some qh else find_qh h' num
  end.

(** Modelled from the spec: [nfq_create_queue(h, num, &nf_callback, data)]
    registers a kernel-side queue for [num] with [data] as the opaque tag
    threaded through every notification of the binding, and fails when the
    queue is already bound or the kernel refuses.  On success the new
    binding is linked at the head of the handle's list.  Returns the handle
    as it is afterwards and the new binding, or [None] for [NULL]. *)
Definition nfq_create_queue (h : nfq_handle) (num : Z) (data : voidptr)
    : M (nfq_handle * option nfq_q_handle) :=
  log (EvCreateQueue num data) ;;
  match find_qh h num with
  | Some _ => ret (h, None)
  | None =>
      match bind_reply env num with
      | Some e => set_errno e ;; ret (h, None)
      | None =>
          let qh := {| qh_id := num; qh_data := data |} in
          ret (qh :: h, Some qh)
      end
  end.

(** [CreateQueue], lines 63-66. *)
Definition CreateQueue (h : nfq_handle) (queue : Z) (idx : Z)
    : M (nfq_handle * option nfq_q_handle) :=
  nfq_create_queue h queue (uintptr_to_voidptr (to_uintptr (host_model env) idx)).

(** [nfq_set_queue_flags] of libnetfilter_queue: 0, or -1 with errno set
    when the kernel rejects the flags. *)
Definition nfq_set_queue_flags (qh : nfq_q_handle) (mask flags : Z) : M Z :=
  log (EvSetQueueFlags qh mask flags) ;;
  match flags_reply env with
  | Some e => set_errno e ;; ret (-1)
  | None => ret 0
  end.

(** [SetQueueFailOpen], lines 68-70. *)
Definition SetQueueFailOpen (qh : nfq_q_handle) : M Z :=
  nfq_set_queue_flags qh NFQA_CFG_F_FAIL_OPEN NFQA_CFG_F_FAIL_OPEN.

(** Modelled from the spec: the decode step of the queue handle API turns
    one received buffer into zero or more packet notifications and invokes
    the per-packet callback once for each, in the order of the buffer; a
    negative result of the callback ends the processing of the buffer.
    Each notification goes to the callback of the binding for its queue
    number, with the binding's token; a notification for an unbound queue
    ends the buffer too.  Every binding of this program is created by
    [CreateQueue], so the callback is [nf_callback]. *)
Fixpoint dispatch (h : nfq_handle) (msgs : list nfq_msg) : M Z :=
  match msgs with
  | [] => ret 0
  | m :: msgs' =>
      match find_qh h (msg_queue m) with
      | None => ret (- ENODEV)
      | Some qh =>
          r <- nf_callback qh (msg_data m) (qh_data qh) ;;
          if r <? 0 then ret r else dispatch h msgs'
      end
  end.

(** [nfq_handle_packet(h, buf, len)]; [msgs] is what [buf] decodes to. *)
Definition nfq_handle_packet (h : nfq_handle) (msgs : list nfq_msg) (len : Z) : M Z :=
  log (EvHandlePacket len) ;;
  dispatch h msgs.

(** [setsockopt]: 0, or -1 with errno set. *)
Definition setsockopt (fd level optname optval optlen : Z) : M Z :=
  log (EvSetsockopt fd level optname optval optlen) ;;
  match setsockopt_reply env with
  | Some e => set_errno e ;; ret (-1)
  | None => ret 0
  end.

(** What [buf] holds after a [recv]. *)
Definition reply_msgs (r : recv_reply) : list nfq_msg :=
  match r with RecvData _ msgs => msgs | _ => [] end.

(** [recv(fd, buf, len, 0)] answered by [r]: the number of bytes received,
    0 when the peer has closed, or -1 with errno set.  A stop request that
    arrived while the call was blocked has taken effect when it returns. *)
Definition recv (fd len flags : Z) (r : recv_step) : M Z :=
  log (EvRecv fd len flags) ;;
  (if rs_async_stop r then stop_reading_packets else ret tt) ;;
  match rs_reply r with
  | RecvData n _ => ret (Z.pos n)
  | RecvClosed => ret 0
  | RecvError e => set_errno (Z.pos e) ;; ret (-1)
  end.

(** The [while] loop of [Run], lines 84-91, one [recv] reply per iteration;
    when the script runs out the loop stays blocked in [recv]. *)
Fixpoint Run_loop (h : nfq_handle) (fd : Z) (script : list recv_step) : M Z :=
  match script with
  | [] => log (EvRecv fd sizeof_buf 0) ;; block
  | r :: script' =>
      rv <- recv fd sizeof_buf 0 r ;;
      if negb (rv =? 0) && (rv >=? 0) then
        st <- get_stop ;;
        if st =? 1 then get_errno
        else
          nfq_handle_packet h (reply_msgs (rs_reply r)) rv ;;
          Run_loop h fd script'
      else get_errno
  end.

(** [Run], lines 76-92. *)
Definition Run (h : nfq_handle) (fd : Z) (script : list recv_step) : M Z :=
  let opt := 1 in
  setsockopt fd SOL_NETLINK NETLINK_NO_ENOBUFS opt sizeof_int ;;
  Run_loop h fd script.

End Glue.

(** ** Observations on traces and scripts *)

(** The [go_callback] calls of a trace, in order. *)
Fixpoint go_calls (tr : list event) : list go_args :=
  match tr with
  | [] => []
  | EvGoCallback a :: tr' => a :: go_calls tr'
  | _ :: tr' => go_calls tr'
  end.

Definition is_verdict (ev : event) : bool :=
  match ev with EvSetVerdict _ _ => true | _ => false end.

(** The verdicts issued in a trace. *)
Definition verdicts (tr : list event) : list event := filter is_verdict tr.

Definition is_handle_packet (ev : event) : bool :=
  match ev with EvHandlePacket _ => true | _ => false end.

(** The buffers handed to [nfq_handle_packet] in a trace. *)
Definition handled (tr : list event) : list event := filter is_handle_packet tr.

Definition has_header (m : nfq_msg) : bool :=
  match attr_packet_hdr (msg_data m) with Some _ => true | None => false end.

(** A successful receive all of whose notifications carry a header. *)
Definition sound_data (r : recv_step) : bool :=
  match rs_reply r with
  | RecvData _ msgs => forallb has_header msgs
  | _ => false
  end.

(** The Go side never requests a stop from inside [go_callback]. *)
Definition go_never_stops (env : environment) : Prop :=
  forall tr a, ge_stop (go_reaction env tr a) = false.

(** The stop flag either keeps its value or has become 1. *)
Definition stop_only_raised (s s' : State) : Prop :=
  stop s' = stop s \/ stop s' = 1.

(** The trace only grows. *)
Definition trace_extended (s s' : State) : Prop :=
  exists evs, trace s' = trace s ++ evs.

(** A computation relates every start state to its end state by [R]. *)
Definition steps {A} (R : State -> State -> Prop) (m : M A) : Prop :=
  forall s, R s (snd (m s)).

(** The binding index [nf_callback] reads back from a token. *)
Definition index_of_token (m : data_model) (p : voidptr) : Z :=
  to_uint32 (voidptr_to_uintptr m p).

(** The arguments [nf_callback] is expected to hand to [go_callback] for a
    notification with header [hdr]: the packet id the header carries on the
    wire, the payload attribute and its length, the index read back from the
    token, and the queue handle. *)
Definition bridge_args (env : environment) (qh : nfq_q_handle) (nfa : nfq_data)
    (cb_func : voidptr) (hdr : nfqnl_msg_packet_hdr) : go_args :=
  {| ga_id := be32_value (packet_id hdr);
     ga_data := attr_payload nfa;
     ga_len := match attr_payload nfa with
               | Some bytes => Z.of_nat (length bytes)
               | None => -1
               end;
     ga_idx := index_of_token (host_model env) cb_func;
     ga_qh := qh |}.

(** The value [recv] returns for a reply. *)
Definition reply_rv (r : recv_reply) : Z :=
  match r with
  | RecvData n _ => Z.pos n
  | RecvClosed => 0
  | RecvError _ => -1
  end.

(** The stop flag is left as it was. *)
Definition stop_kept (s s' : State) : Prop := stop s' = stop s.

(** No stop request arrives while the loop is blocked in this [recv]. *)
Definition no_async_stop (r : recv_step) : Prop := rs_async_stop r = false.

(** ** Scenarios *)

(** The scenario of the specification: packet id 42 and a four-byte payload,
    delivered on queue 0, which is bound with index 7. *)
Definition id42 : be32 := mk_be32 x00 x00 x00 x2a.
Definition hdr42 : nfqnl_msg_packet_hdr := mk_packet_hdr id42 (x08, x00) x00.
Definition payload42 : list byte := [x45; x00; x00; x14].
Definition nfa42 : nfq_data := mk_nfq_data (Some hdr42) (Some payload42).
Definition msg42 : nfq_msg := mk_msg 0 nfa42.

(** A notification without a header, and one without a payload. *)
Definition nfa_no_hdr : nfq_data := mk_nfq_data None (Some payload42).
Definition nfa_no_payload : nfq_data := mk_nfq_data (Some hdr42) None.

(** A little-endian 64-bit host on which every kernel request succeeds and
    the Go side leaves the C state alone. *)
Definition quiet_env : environment :=
  {| host_endian := LittleEndian;
     host_model := LP64;
     go_reaction := fun _ _ => {| ge_stop := false; ge_errno := None |};
     setsockopt_reply := None;
     bind_reply := fun _ => None;
     flags_reply := None |}.

(** The same host with a kernel that rejects the fail-open flag with
    [EOPNOTSUPP]. *)
Definition no_failopen_env : environment :=
  {| host_endian := LittleEndian;
     host_model := LP64;
     go_reaction := fun _ _ => {| ge_stop := false; ge_errno := None |};
     setsockopt_reply := None;
     bind_reply := fun _ => None;
     flags_reply := Some 95 |}.

Definition qh7 : nfq_q_handle := {| qh_id := 0; qh_data := 7 |}.
Definition qh9 : nfq_q_handle := {| qh_id := 1; qh_data := 9 |}.

Definition stopped_state : State := {| stop := 1; errno := 0; trace := [] |}.

(** The call the scenario expects. *)
Definition call42 : go_args :=
  {| ga_id := 42; ga_data := Some payload42; ga_len := 4; ga_idx := 7; ga_qh := qh7 |}.

(** Receive steps: one buffer holding the scenario's packet, an orderly
    close, and a failure with [ENOBUFS]. *)
Definition step_data42 : recv_step := mk_recv_step (RecvData 4 [msg42]) false.
Definition step_closed : recv_step := mk_recv_step RecvClosed false.
Definition step_enobufs : recv_step := mk_recv_step (RecvError 105) false.

(** The state of a process whose fail-open request was rejected and which
    then requested the stop, before [Run] is entered. *)
Definition stale_errno_state : State :=
  snd (stop_reading_packets (snd (SetQueueFailOpen no_failopen_env qh7 initial_state))).

(** What C3 asks of a call made while queue [queue] is bound to [qh] with
    index [idx] on top of the bindings [h]: a call on that queue carries
    [qh] and [idx]; a call on another queue carries that queue's own
    binding from [h] and the index of its token. *)
Definition routed (m : data_model) (h : nfq_handle) (queue idx : Z)
    (qh : nfq_q_handle) (a : go_args) : Prop :=
  (qh_id (ga_qh a) = queue -> ga_qh a = qh /\ ga_idx a = idx) /\
  (qh_id (ga_qh a) <> queue ->
   find_qh h (qh_id (ga_qh a)) = Some (ga_qh a) /\
   ga_idx a = index_of_token m (qh_data (ga_qh a))).

(** ** Further observations *)

Definition is_data (r : recv_step) : bool :=
  match rs_reply r with RecvData _ _ => true | _ => false end.

(** The notifications of the buffer a receive step brings. *)
Definition step_msgs (r : recv_step) : list nfq_msg := reply_msgs (rs_reply r).

(** Every notification of the buffer carries a header. *)
Definition headers_ok (r : recv_step) : bool := forallb has_header (step_msgs r).

(** A notification on a bound queue that carries a header. *)
Definition deliverable (h : nfq_handle) (m : nfq_msg) : bool :=
  match find_qh h (msg_queue m) with
  | Some _ => has_header m
  | None => false
  end.

(** A successful receive all of whose notifications are deliverable. *)
Definition deliverable_step (h : nfq_handle) (r : recv_step) : bool :=
  is_data r && forallb (deliverable h) (step_msgs r).

(** The [go_callback] call a deliverable notification leads to. *)
Definition call_of (env : environment) (h : nfq_handle) (m : nfq_msg) : list go_args :=
  match find_qh h (msg_queue m), attr_packet_hdr (msg_data m) with
  | Some qh, Some hdr => [bridge_args env qh (msg_data m) (qh_data qh) hdr]
  | _, _ => []
  end.

(** The calls the buffers of a script lead to, buffer after buffer. *)
Definition calls_of (env : environment) (h : nfq_handle) (script : list recv_step)
    : list go_args :=
  flat_map (fun r => flat_map (call_of env h) (step_msgs r)) script.

(** The hand-over of the buffer of a receive step to the decode loop. *)
Definition handover (r : recv_step) : event := EvHandlePacket (reply_rv (rs_reply r)).

(** The events the bridge produces: the two accessors and [go_callback]. *)
Definition bridge_event (ev : event) : Prop :=
  match ev with
  | EvGetMsgPacketHdr _ | EvGetPayload _ | EvGoCallback _ => True
  | _ => False
  end.

(** The events the loop of [Run] produces on socket [fd]: receives of at
    most [sizeof_buf] bytes on [fd] without flags, hand-overs of a positive
    number of bytes, and what the bridge produces. *)
Definition loop_event (fd : Z) (ev : event) : Prop :=
  match ev with
  | EvRecv f len flags => f = fd /\ len = sizeof_buf /\ flags = 0
  | EvHandlePacket len => 0 < len
  | _ => bridge_event ev
  end.

(** The trace grows by events that satisfy [P]. *)
Definition emits (P : event -> Prop) (s s' : State) : Prop :=
  exists evs, trace s' = trace s ++ evs /\ Forall P evs.

(** The flag holds one of the two values the program gives it. *)
Definition stop_boolean (s : State) : Prop := stop s = 0 \/ stop s = 1.

(** The state [nf_callback] returns in after a call of [go_callback] with
    arguments [a]. *)
Definition after_call (env : environment) (nfa : nfq_data) (a : go_args) (s : State)
    : State :=
  let tr := trace s ++ [EvGetMsgPacketHdr nfa; EvGetPayload nfa] in
  {| stop := if ge_stop (go_reaction env tr a) then 1 else stop s;
     errno := match ge_errno (go_reaction env tr a) with
              | Some e => e
              | None => errno s
              end;
     trace := tr ++ [EvGoCallback a] |}.

(** A Go side that requests the stop at the first packet it sees. *)
Definition stopping_env : environment :=
  {| host_endian := BigEndian;
     host_model := ILP32;
     go_reaction := fun _ _ => {| ge_stop := true; ge_errno := None |};
     setsockopt_reply := None;
     bind_reply := fun _ => None;
     flags_reply := None |}.

(** A host on which [setsockopt] fails with [ENOPROTOOPT]. *)
Definition no_sockopt_env : environment :=
  {| host_endian := LittleEndian;
     host_model := LP64;
     go_reaction := fun _ _ => {| ge_stop := false; ge_errno := None |};
     setsockopt_reply := Some 92;
     bind_reply := fun _ => None;
     flags_reply := None |}.

Definition msg_no_hdr : nfq_msg := mk_msg 0 nfa_no_hdr.
Definition msg_unbound : nfq_msg := mk_msg 5 nfa42.
Definition msg_on_1 : nfq_msg := mk_msg 1 nfa_no_payload.

(** * Verification *)

(** ** Byte order *)

Lemma byte_val_range (b : byte) : 0 <= byte_val b < 256.
Proof.
  unfold byte_val. pose proof (Byte.to_N_bounded b). lia.
Qed.

Lemma bswap_32_bytes a b c d :
  0 <= a < 256 -> 0 <= b < 256 -> 0 <= c < 256 -> 0 <= d < 256 ->
  bswap_32 (a + b * 2 ^ 8 + c * 2 ^ 16 + d * 2 ^ 24)
  = a * 2 ^ 24 + b * 2 ^ 16 + c * 2 ^ 8 + d.
Proof.
  intros Ha Hb Hc Hd. unfold bswap_32, byte_of.
  change (8 * 0) with 0. change (8 * 1) with 8.
  change (8 * 2) with 16. change (8 * 3) with 24.
  change (2 ^ 0) with 1. change (2 ^ 8) with 256.
  change (2 ^ 16) with 65536. change (2 ^ 24) with 16777216.
  Z.div_mod_to_equations. lia.
Qed.

Lemma ntohl_load (e : endianness) (w : be32) :
  ntohl e (load_u32 e w) = be32_value w.
Proof.
  destruct e; simpl; [| reflexivity].
  rewrite bswap_32_bytes by apply byte_val_range.
  reflexivity.
Qed.

(** ** Casts of the callback token *)

Lemma index_of_token_round_trip (m : data_model) (idx : Z) :
  0 <= idx < 2 ^ 32 ->
  index_of_token m (uintptr_to_voidptr (to_uintptr m idx)) = idx.
Proof.
  intros H. unfold index_of_token, voidptr_to_uintptr, uintptr_to_voidptr, to_uintptr, to_uint32.
  assert (Hw : 2 ^ 32 <= 2 ^ uintptr_bits m) by (destruct m; simpl; lia).
  rewrite Z.mod_mod by lia.
  rewrite (Z.mod_small idx (2 ^ uintptr_bits m)) by lia.
  apply Z.mod_small. assumption.
Qed.

(** ** Traces *)

Lemma go_calls_app (t1 t2 : list event) :
  go_calls (t1 ++ t2) = go_calls t1 ++ go_calls t2.
Proof.
  induction t1 as [| ev t1 IH]; simpl; [reflexivity |].
  destruct ev; simpl; rewrite IH; reflexivity.
Qed.

Lemma verdicts_app (t1 t2 : list event) :
  verdicts (t1 ++ t2) = verdicts t1 ++ verdicts t2.
Proof. unfold verdicts. apply filter_app. Qed.

Lemma handled_app (t1 t2 : list event) :
  handled (t1 ++ t2) = handled t1 ++ handled t2.
Proof. unfold handled. apply filter_app. Qed.

(** ** The bridge, one notification at a time *)

Section Bridge.

Variable env : environment.

Lemma nf_callback_running qh nfa cb_func hdr s :
  stop s = 0 ->
  attr_packet_hdr nfa = Some hdr ->
  fst (nf_callback env qh nfa cb_func s) = Done 0 /\
  trace (snd (nf_callback env qh nfa cb_func s))
  = trace s ++ [EvGetMsgPacketHdr nfa; EvGetPayload nfa;
                EvGoCallback (bridge_args env qh nfa cb_func hdr)].
Proof.
  intros Hstop Hhdr.
  unfold nf_callback, bind, get_stop. rewrite Hstop. simpl.
  rewrite Hhdr. unfold nfq_get_payload, bind, log. simpl.
  rewrite ntohl_load.
  unfold bridge_args, index_of_token.
  destruct (attr_payload nfa) as [bytes |]; simpl;
    unfold go_callback, bind, get_trace, log, stop_reading_packets, set_stop, ret; simpl;
    match goal with |- context [go_reaction env ?t ?a] =>
      destruct (go_reaction env t a) as [[|] [e|]] end; simpl;
    rewrite <- !app_assoc; simpl; split; reflexivity.
Qed.

Lemma nf_callback_stopped qh nfa cb_func s :
  stop s <> 0 ->
  nf_callback env qh nfa cb_func s = (Done (-1), s).
Proof.
  intros Hstop. unfold nf_callback, bind, get_stop.
  destruct (Z.eqb_spec (stop s) 0) as [E | E]; [contradiction | reflexivity].
Qed.

Lemma nf_callback_no_header qh nfa cb_func s :
  stop s = 0 ->
  attr_packet_hdr nfa = None ->
  fst (nf_callback env qh nfa cb_func s) = Crashed /\
  trace (snd (nf_callback env qh nfa cb_func s)) = trace s ++ [EvGetMsgPacketHdr nfa].
Proof.
  intros Hstop Hhdr.
  unfold nf_callback, bind, get_stop. rewrite Hstop. simpl.
  rewrite Hhdr. simpl. split; reflexivity.
Qed.

End Bridge.

(** ** Relating start and end states of computations *)

Section Steps.

Variable R : State -> State -> Prop.
Hypothesis R_refl : forall s, R s s.
Hypothesis R_trans : forall a b c, R a b -> R b c -> R a c.

Lemma steps_ret {A} (a : A) : steps R (ret a).
Proof. intros s. apply R_refl. Qed.

Lemma steps_crash {A} : steps R (@crash A).
Proof. intros s. apply R_refl. Qed.

Lemma steps_block {A} : steps R (@block A).
Proof. intros s. apply R_refl. Qed.

Lemma steps_get_stop : steps R get_stop.
Proof. intros s. apply R_refl. Qed.

Lemma steps_get_errno : steps R get_errno.
Proof. intros s. apply R_refl. Qed.

Lemma steps_get_trace : steps R get_trace.
Proof. intros s. apply R_refl. Qed.

Lemma steps_bind {A B} (m : M A) (f : A -> M B) :
  steps R m -> (forall a, steps R (f a)) -> steps R (bind m f).
Proof.
  intros Hm Hf s. unfold bind.
  specialize (Hm s). destruct (m s) as [[a | |] s1]; simpl in *; try assumption.
  apply R_trans with s1; [assumption | apply Hf].
Qed.

End Steps.

Lemma stop_only_raised_refl s : stop_only_raised s s.
Proof. left. reflexivity. Qed.

Lemma stop_only_raised_trans a b c :
  stop_only_raised a b -> stop_only_raised b c -> stop_only_raised a c.
Proof. unfold stop_only_raised. intros [H1 | H1] [H2 | H2]; lia. Qed.

Lemma trace_extended_refl s : trace_extended s s.
Proof. exists []. symmetry. apply app_nil_r. Qed.

Lemma trace_extended_trans a b c :
  trace_extended a b -> trace_extended b c -> trace_extended a c.
Proof.
  intros [e1 H1] [e2 H2]. exists (e1 ++ e2).
  rewrite H2, H1. symmetry. apply app_assoc.
Qed.

Lemma stop_kept_refl s : stop_kept s s.
Proof. reflexivity. Qed.

Lemma stop_kept_trans a b c : stop_kept a b -> stop_kept b c -> stop_kept a c.
Proof. unfold stop_kept. congruence. Qed.

Create HintDb steps_db.

#[local] Hint Resolve stop_only_raised_refl stop_only_raised_trans
  trace_extended_refl trace_extended_trans stop_kept_refl stop_kept_trans : steps_db.

Lemma raised_set_errno e : steps stop_only_raised (set_errno e).
Proof. intros s. left. reflexivity. Qed.

Lemma raised_log ev : steps stop_only_raised (log ev).
Proof. intros s. left. reflexivity. Qed.

Lemma raised_stop_reading_packets : steps stop_only_raised stop_reading_packets.
Proof. intros s. right. reflexivity. Qed.

Lemma extended_set_errno e : steps trace_extended (set_errno e).
Proof. intros s. exists []. simpl. symmetry. apply app_nil_r. Qed.

Lemma extended_log ev : steps trace_extended (log ev).
Proof. intros s. exists [ev]. reflexivity. Qed.

Lemma extended_stop_reading_packets : steps trace_extended stop_reading_packets.
Proof. intros s. exists []. simpl. symmetry. apply app_nil_r. Qed.

Lemma kept_set_errno e : steps stop_kept (set_errno e).
Proof. intros s. reflexivity. Qed.

Lemma kept_log ev : steps stop_kept (log ev).
Proof. intros s. reflexivity. Qed.

#[local] Hint Resolve raised_set_errno raised_log raised_stop_reading_packets
  extended_set_errno extended_log extended_stop_reading_packets
  kept_set_errno kept_log : steps_db.

(** Reflexivity and transitivity of the three relations. *)
Ltac order_side :=
  first [ exact stop_only_raised_refl | exact stop_only_raised_trans
        | exact trace_extended_refl | exact trace_extended_trans
        | exact stop_kept_refl | exact stop_kept_trans ].

(** Walks through the binds and branches of a computation, leaving to the
    hint base the primitive operations and the lemmas on earlier functions. *)
Ltac walk :=
  repeat (try order_side; intros;
    first
      [ solve [auto with steps_db]
      | apply steps_bind
      | apply steps_ret
      | apply steps_crash
      | apply steps_block
      | apply steps_get_stop
      | apply steps_get_errno
      | apply steps_get_trace
      | match goal with
        | |- steps _ (if ?b then _ else _) => destruct b
        | |- steps _ (match ?x with _ => _ end) => destruct x
        end ]).

Section Frames.

Variable env : environment.

Lemma raised_go_callback id data len idx qh :
  steps stop_only_raised (go_callback env id data len idx qh).
Proof. unfold go_callback. walk. Qed.

Lemma extended_go_callback id data len idx qh :
  steps trace_extended (go_callback env id data len idx qh).
Proof. unfold go_callback. walk. Qed.

#[local] Hint Resolve raised_go_callback extended_go_callback : steps_db.

Lemma raised_nf_callback qh nfa cb_func :
  steps stop_only_raised (nf_callback env qh nfa cb_func).
Proof. unfold nf_callback, nfq_get_msg_packet_hdr, nfq_get_payload. walk. Qed.

Lemma extended_nf_callback qh nfa cb_func :
  steps trace_extended (nf_callback env qh nfa cb_func).
Proof. unfold nf_callback, nfq_get_msg_packet_hdr, nfq_get_payload. walk. Qed.

#[local] Hint Resolve raised_nf_callback extended_nf_callback : steps_db.

Lemma raised_dispatch h msgs : steps stop_only_raised (dispatch env h msgs).
Proof. induction msgs as [| m msgs IH]; simpl; walk. Qed.

Lemma extended_dispatch h msgs : steps trace_extended (dispatch env h msgs).
Proof. induction msgs as [| m msgs IH]; simpl; walk. Qed.

#[local] Hint Resolve raised_dispatch extended_dispatch : steps_db.

Lemma raised_nfq_handle_packet h msgs len :
  steps stop_only_raised (nfq_handle_packet env h msgs len).
Proof. unfold nfq_handle_packet. walk. Qed.

Lemma extended_nfq_handle_packet h msgs len :
  steps trace_extended (nfq_handle_packet env h msgs len).
Proof. unfold nfq_handle_packet. walk. Qed.

Lemma raised_recv fd len flags r : steps stop_only_raised (recv fd len flags r).
Proof. unfold recv. walk. Qed.

Lemma extended_recv fd len flags r : steps trace_extended (recv fd len flags r).
Proof. unfold recv. walk. Qed.

Lemma raised_setsockopt fd level optname optval optlen :
  steps stop_only_raised (setsockopt env fd level optname optval optlen).
Proof. unfold setsockopt. walk. Qed.

Lemma extended_setsockopt fd level optname optval optlen :
  steps trace_extended (setsockopt env fd level optname optval optlen).
Proof. unfold setsockopt. walk. Qed.

#[local] Hint Resolve raised_nfq_handle_packet extended_nfq_handle_packet
  raised_recv extended_recv raised_setsockopt extended_setsockopt : steps_db.

Lemma raised_Run_loop h fd script : steps stop_only_raised (Run_loop env h fd script).
Proof. induction script as [| r script IH]; simpl; walk. Qed.

Lemma extended_Run_loop h fd script : steps trace_extended (Run_loop env h fd script).
Proof. induction script as [| r script IH]; simpl; walk. Qed.

#[local] Hint Resolve raised_Run_loop extended_Run_loop : steps_db.

Lemma raised_Run h fd script : steps stop_only_raised (Run env h fd script).
Proof. unfold Run. walk. Qed.

Lemma extended_Run h fd script : steps trace_extended (Run env h fd script).
Proof. unfold Run. walk. Qed.

Lemma raised_CreateQueue h queue idx :
  steps stop_only_raised (CreateQueue env h queue idx).
Proof. unfold CreateQueue, nfq_create_queue. walk. Qed.

Lemma raised_SetQueueFailOpen qh : steps stop_only_raised (SetQueueFailOpen env qh).
Proof. unfold SetQueueFailOpen, nfq_set_queue_flags. walk. Qed.

(** *** When nobody requests a stop *)

Hypothesis quiet : go_never_stops env.

Lemma kept_go_callback id data len idx qh :
  steps stop_kept (go_callback env id data len idx qh).
Proof.
  intros s. unfold go_callback, bind, get_trace, log. simpl.
  rewrite quiet. simpl.
  destruct (ge_errno _); reflexivity.
Qed.

#[local] Hint Resolve kept_go_callback : steps_db.

Lemma kept_nf_callback qh nfa cb_func :
  steps stop_kept (nf_callback env qh nfa cb_func).
Proof. unfold nf_callback, nfq_get_msg_packet_hdr, nfq_get_payload. walk. Qed.

#[local] Hint Resolve kept_nf_callback : steps_db.

Lemma kept_dispatch h msgs : steps stop_kept (dispatch env h msgs).
Proof. induction msgs as [| m msgs IH]; simpl; walk. Qed.

#[local] Hint Resolve kept_dispatch : steps_db.

Lemma kept_nfq_handle_packet h msgs len :
  steps stop_kept (nfq_handle_packet env h msgs len).
Proof. unfold nfq_handle_packet. walk. Qed.

Lemma kept_setsockopt fd level optname optval optlen :
  steps stop_kept (setsockopt env fd level optname optval optlen).
Proof. unfold setsockopt. walk. Qed.

Lemma kept_recv fd len flags r :
  no_async_stop r -> steps stop_kept (recv fd len flags r).
Proof. unfold no_async_stop, recv. intros ->. walk. Qed.

#[local] Hint Resolve kept_nfq_handle_packet kept_setsockopt kept_recv : steps_db.

Lemma kept_Run_loop h fd script :
  Forall no_async_stop script -> steps stop_kept (Run_loop env h fd script).
Proof.
  induction 1 as [| r script Hr Hs IH]; simpl; walk.
Qed.

#[local] Hint Resolve kept_Run_loop : steps_db.

Lemma kept_Run h fd script :
  Forall no_async_stop script -> steps stop_kept (Run env h fd script).
Proof. intros H. unfold Run. walk. Qed.

End Frames.

(** ** The decode loop and the receive loop *)

Section Loops.

Variable env : environment.

Lemma find_qh_id h num qh : find_qh h num = Some qh -> qh_id qh = num.
Proof.
  induction h as [| q h IH]; simpl; [discriminate |].
  destruct (Z.eqb_spec (qh_id q) num) as [E | E]; [| exact IH].
  intros [= <-]. exact E.
Qed.

Lemma nf_callback_crash_only qh nfa cb_func s :
  fst (nf_callback env qh nfa cb_func s) = Crashed ->
  stop s = 0 /\ attr_packet_hdr nfa = None.
Proof.
  intros H.
  destruct (Z.eq_dec (stop s) 0) as [E | E].
  - split; [exact E |].
    destruct (attr_packet_hdr nfa) as [hdr |] eqn:Hh; [| reflexivity].
    destruct (nf_callback_running env qh nfa cb_func hdr s E Hh) as [Hd _].
    rewrite Hd in H. discriminate.
  - rewrite (nf_callback_stopped env qh nfa cb_func s E) in H. discriminate.
Qed.

Lemma dispatch_stopped h m msgs qh s :
  stop s <> 0 ->
  find_qh h (msg_queue m) = Some qh ->
  dispatch env h (m :: msgs) s = (Done (-1), s).
Proof.
  intros Hstop Hq. simpl. rewrite Hq. unfold bind.
  rewrite (nf_callback_stopped env _ _ _ s Hstop). reflexivity.
Qed.

Lemma dispatch_no_header h m msgs qh s :
  stop s = 0 ->
  find_qh h (msg_queue m) = Some qh ->
  attr_packet_hdr (msg_data m) = None ->
  fst (dispatch env h (m :: msgs) s) = Crashed /\
  trace (snd (dispatch env h (m :: msgs) s))
  = trace s ++ [EvGetMsgPacketHdr (msg_data m)].
Proof.
  intros Hstop Hq Hh. simpl. rewrite Hq. unfold bind.
  destruct (nf_callback_no_header env qh (msg_data m) (qh_data qh) s Hstop Hh) as [H1 H2].
  destruct (nf_callback env qh (msg_data m) (qh_data qh) s) as [[r | |] s1];
    simpl in *; try discriminate.
  split; [reflexivity | exact H2].
Qed.

Lemma dispatch_one h m msgs qh hdr s :
  stop s = 0 ->
  find_qh h (msg_queue m) = Some qh ->
  attr_packet_hdr (msg_data m) = Some hdr ->
  dispatch env h (m :: msgs) s
  = dispatch env h msgs (snd (nf_callback env qh (msg_data m) (qh_data qh) s)).
Proof.
  intros Hstop Hq Hh. simpl. rewrite Hq. unfold bind.
  destruct (nf_callback_running env qh (msg_data m) (qh_data qh) hdr s Hstop Hh) as [H1 _].
  destruct (nf_callback env qh (msg_data m) (qh_data qh) s) as [[r | |] s1];
    simpl in *; try discriminate.
  injection H1 as ->. reflexivity.
Qed.

(** Every call the decode loop makes carries the handle bound to the queue
    the notification came on and the index read back from that handle's
    token. *)
Lemma dispatch_routed h msgs s :
  exists evs,
    trace (snd (dispatch env h msgs s)) = trace s ++ evs /\
    Forall (fun a => find_qh h (qh_id (ga_qh a)) = Some (ga_qh a) /\
                     ga_idx a = index_of_token (host_model env) (qh_data (ga_qh a)))
           (go_calls evs).
Proof.
  revert s. induction msgs as [| m msgs IH]; intros s.
  - exists []. simpl. split; [symmetry; apply app_nil_r | constructor].
  - destruct (find_qh h (msg_queue m)) as [qh |] eqn:Hq.
    + destruct (Z.eq_dec (stop s) 0) as [E | E].
      * destruct (attr_packet_hdr (msg_data m)) as [hdr |] eqn:Hh.
        -- rewrite (dispatch_one h m msgs qh hdr s E Hq Hh).
           destruct (nf_callback_running env qh (msg_data m) (qh_data qh) hdr s E Hh)
             as [_ Ht].
           destruct (IH (snd (nf_callback env qh (msg_data m) (qh_data qh) s)))
             as [evs [He Hf]].
           eexists. split.
           ++ rewrite He, Ht, <- app_assoc. reflexivity.
           ++ rewrite go_calls_app. simpl. constructor; [| exact Hf].
              simpl. split; [| reflexivity].
              rewrite (find_qh_id h _ qh Hq). exact Hq.
        -- destruct (dispatch_no_header h m msgs qh s E Hq Hh) as [_ Ht].
           eexists. split; [exact Ht | constructor].
      * rewrite (dispatch_stopped h m msgs qh s E Hq).
        exists []. simpl. split; [symmetry; apply app_nil_r | constructor].
    + simpl. rewrite Hq. exists []. simpl.
      split; [symmetry; apply app_nil_r | constructor].
Qed.

(** With the flag unset, a quiet Go side and a header on every notification
    the decode loop runs to its end. *)
Lemma dispatch_sound h msgs s :
  go_never_stops env ->
  stop s = 0 ->
  forallb has_header msgs = true ->
  exists v, fst (dispatch env h msgs s) = Done v.
Proof.
  intros Hq. revert s. induction msgs as [| m msgs IH]; intros s Hs Hm.
  - exists 0. reflexivity.
  - simpl in Hm. apply andb_prop in Hm. destruct Hm as [Hm1 Hm2].
    destruct (find_qh h (msg_queue m)) as [qh |] eqn:Hf.
    + unfold has_header in Hm1.
      destruct (attr_packet_hdr (msg_data m)) as [hdr |] eqn:Hh; [| discriminate].
      rewrite (dispatch_one h m msgs qh hdr s Hs Hf Hh).
      apply IH; [| exact Hm2].
      rewrite (kept_nf_callback env Hq qh (msg_data m) (qh_data qh) s). exact Hs.
    + simpl. rewrite Hf. eexists. reflexivity.
Qed.

(** *** [recv] *)

Lemma recv_value fd len flags r s :
  fst (recv fd len flags r s) = Done (reply_rv (rs_reply r)).
Proof.
  unfold recv, bind, log. simpl.
  destruct r as [[n msgs | | e] [|]]; reflexivity.
Qed.

Lemma recv_trace fd len flags r s :
  trace (snd (recv fd len flags r s)) = trace s ++ [EvRecv fd len flags].
Proof.
  unfold recv, bind, log. simpl.
  destruct r as [[n msgs | | e] [|]]; reflexivity.
Qed.

Lemma recv_stop fd len flags r s :
  stop (snd (recv fd len flags r s)) = if rs_async_stop r then 1 else stop s.
Proof.
  unfold recv, bind, log. simpl.
  destruct r as [[n msgs | | e] [|]]; reflexivity.
Qed.

Lemma recv_errno fd len flags r s :
  errno (snd (recv fd len flags r s))
  = match rs_reply r with RecvError e => Z.pos e | _ => errno s end.
Proof.
  unfold recv, bind, log. simpl.
  destruct r as [[n msgs | | e] [|]]; reflexivity.
Qed.

(** *** One iteration of the loop of [Run] *)

Lemma Run_loop_cons h fd r script s :
  Run_loop env h fd (r :: script) s
  = (let s1 := snd (recv fd sizeof_buf 0 r s) in
     let rv := reply_rv (rs_reply r) in
     if negb (rv =? 0) && (rv >=? 0) && negb (stop s1 =? 1)
     then (nfq_handle_packet env h (reply_msgs (rs_reply r)) rv ;;
           Run_loop env h fd script) s1
     else (Done (errno s1), s1)).
Proof.
  cbv zeta. simpl Run_loop. unfold bind at 1.
  pose proof (recv_value fd sizeof_buf 0 r s) as Hv.
  destruct (recv fd sizeof_buf 0 r s) as [[rv | |] s1]; simpl in Hv; try discriminate.
  injection Hv as ->. simpl snd.
  destruct (negb (reply_rv (rs_reply r) =? 0) && (reply_rv (rs_reply r) >=? 0)); simpl.
  - unfold bind at 1. unfold get_stop.
    destruct (stop s1 =? 1); reflexivity.
  - reflexivity.
Qed.

Lemma handle_then_loop_trace h fd msgs rv script s :
  exists evs,
    trace (snd ((nfq_handle_packet env h msgs rv ;; Run_loop env h fd script) s))
    = trace s ++ EvHandlePacket rv :: evs.
Proof.
  assert (H : steps trace_extended
                (dispatch env h msgs ;; Run_loop env h fd script)).
  { apply steps_bind; [exact trace_extended_trans | apply extended_dispatch |].
    intros _. apply extended_Run_loop. }
  destruct (H (snd (log (EvHandlePacket rv) s))) as [evs He].
  exists evs.
  unfold nfq_handle_packet.
  replace ((log (EvHandlePacket rv) ;; dispatch env h msgs) ;; Run_loop env h fd script)
    with (fun s0 => (dispatch env h msgs ;; Run_loop env h fd script)
                      (snd (log (EvHandlePacket rv) s0))) by reflexivity.
  cbv beta. rewrite He. simpl. rewrite <- app_assoc. reflexivity.
Qed.

Lemma Run_loop_returns_errno h fd script :
  forall s v s', Run_loop env h fd script s = (Done v, s') -> v = errno s'.
Proof.
  induction script as [| r script IH]; intros s v s' H.
  - simpl in H. unfold bind, log, block in H. simpl in H. discriminate.
  - rewrite Run_loop_cons in H. cbv zeta in H.
    destruct (negb (reply_rv (rs_reply r) =? 0) && (reply_rv (rs_reply r) >=? 0)
              && negb (stop (snd (recv fd sizeof_buf 0 r s)) =? 1)).
    + unfold bind at 1 in H.
      destruct (nfq_handle_packet env h (reply_msgs (rs_reply r))
                  (reply_rv (rs_reply r)) (snd (recv fd sizeof_buf 0 r s)))
        as [[a | |] s2]; try discriminate.
      exact (IH _ _ _ H).
    + injection H as <- <-. reflexivity.
Qed.

Lemma setsockopt_done fd level optname optval optlen s :
  exists v, fst (setsockopt env fd level optname optval optlen s) = Done v.
Proof.
  unfold setsockopt, bind, log. simpl.
  destruct (setsockopt_reply env); simpl; eexists; reflexivity.
Qed.

Lemma Run_unfold h fd script s :
  Run env h fd script s
  = Run_loop env h fd script
      (snd (setsockopt env fd SOL_NETLINK NETLINK_NO_ENOBUFS 1 sizeof_int s)).
Proof.
  unfold Run. cbv zeta. unfold bind at 1.
  destruct (setsockopt_done fd SOL_NETLINK NETLINK_NO_ENOBUFS 1 sizeof_int s) as [v Hv].
  destruct (setsockopt env fd SOL_NETLINK NETLINK_NO_ENOBUFS 1 sizeof_int s)
    as [[a | |] s1]; simpl in Hv; try discriminate.
  reflexivity.
Qed.

End Loops.

(** ** The receive loop as a whole *)

Section Receive.

Variable env : environment.

Lemma setsockopt_trace fd level optname optval optlen s :
  trace (snd (setsockopt env fd level optname optval optlen s))
  = trace s ++ [EvSetsockopt fd level optname optval optlen].
Proof.
  unfold setsockopt, bind, log. simpl.
  destruct (setsockopt_reply env); reflexivity.
Qed.

Lemma setsockopt_stop fd level optname optval optlen s :
  stop (snd (setsockopt env fd level optname optval optlen s)) = stop s.
Proof.
  unfold setsockopt, bind, log. simpl.
  destruct (setsockopt_reply env); reflexivity.
Qed.

Lemma setsockopt_errno fd level optname optval optlen s :
  errno (snd (setsockopt env fd level optname optval optlen s))
  = match setsockopt_reply env with Some e => e | None => errno s end.
Proof.
  unfold setsockopt, bind, log. simpl.
  destruct (setsockopt_reply env); reflexivity.
Qed.

(** Every run of the loop starts with a [recv]. *)
Lemma Run_loop_first_recv h fd script s :
  exists rest,
    trace (snd (Run_loop env h fd script s)) = trace s ++ EvRecv fd sizeof_buf 0 :: rest.
Proof.
  destruct script as [| r script].
  - exists []. reflexivity.
  - rewrite Run_loop_cons. cbv zeta.
    destruct (negb (reply_rv (rs_reply r) =? 0) && (reply_rv (rs_reply r) >=? 0)
              && negb (stop (snd (recv fd sizeof_buf 0 r s)) =? 1)).
    + destruct (handle_then_loop_trace env h fd (reply_msgs (rs_reply r))
                  (reply_rv (rs_reply r)) script (snd (recv fd sizeof_buf 0 r s)))
        as [evs He].
      rewrite He, recv_trace, <- app_assoc. simpl. eexists. reflexivity.
    + simpl. rewrite recv_trace. exists []. reflexivity.
Qed.

(** With the flag at 1 the loop returns after its first [recv]. *)
Lemma Run_loop_stopped h fd r script s :
  stop s = 1 ->
  Run_loop env h fd (r :: script) s
  = (Done (errno (snd (recv fd sizeof_buf 0 r s))), snd (recv fd sizeof_buf 0 r s)).
Proof.
  intros Hs. rewrite Run_loop_cons. cbv zeta.
  rewrite recv_stop, Hs.
  replace (if rs_async_stop r then 1 else 1) with 1 by (destruct (rs_async_stop r); reflexivity).
  simpl. rewrite andb_false_r. reflexivity.
Qed.

Lemma Run_loop_stopped_trace h fd script s :
  stop s = 1 ->
  trace (snd (Run_loop env h fd script s)) = trace s ++ [EvRecv fd sizeof_buf 0].
Proof.
  intros Hs. destruct script as [| r script].
  - reflexivity.
  - rewrite (Run_loop_stopped h fd r script s Hs). simpl. apply recv_trace.
Qed.

(** A receive error after any number of sound buffers, with nobody
    requesting a stop: the loop returns the error code and the flag is
    still unset. *)
Lemma Run_loop_error_after_data h fd pre e post :
  go_never_stops env ->
  Forall no_async_stop pre ->
  forallb sound_data pre = true ->
  forall s, stop s = 0 ->
    fst (Run_loop env h fd (pre ++ mk_recv_step (RecvError e) false :: post) s)
    = Done (Z.pos e) /\
    stop (snd (Run_loop env h fd (pre ++ mk_recv_step (RecvError e) false :: post) s)) = 0.
Proof.
  intros Hq Ha. induction Ha as [| r pre Hr Ha IH]; intros Hd s Hs.
  - simpl app. rewrite Run_loop_cons. cbv zeta. cbn [rs_reply reply_rv].
    change (negb (-1 =? 0) && (-1 >=? 0)) with false. cbn [andb fst snd].
    rewrite recv_errno, recv_stop. split; [reflexivity | exact Hs].
  - simpl in Hd. apply andb_prop in Hd. destruct Hd as [Hd1 Hd2].
    simpl app. rewrite Run_loop_cons. cbv zeta.
    set (s1 := snd (recv fd sizeof_buf 0 r s)).
    assert (Hs1 : stop s1 = 0).
    { unfold s1. rewrite recv_stop. unfold no_async_stop in Hr. rewrite Hr. exact Hs. }
    rewrite Hs1.
    unfold sound_data in Hd1.
    destruct (rs_reply r) as [n msgs | |] eqn:Er; try discriminate.
    cbn [reply_rv reply_msgs].
    change (negb (Z.pos n =? 0) && (Z.pos n >=? 0) && negb (0 =? 1)) with true.
    cbv iota.
    assert (Hk : stop (snd (nfq_handle_packet env h msgs (Z.pos n) s1)) = 0).
    { rewrite (kept_nfq_handle_packet env Hq h msgs (Z.pos n) s1). exact Hs1. }
    assert (Hv : exists v, fst (nfq_handle_packet env h msgs (Z.pos n) s1) = Done v).
    { unfold nfq_handle_packet, bind, log. simpl.
      apply dispatch_sound; [exact Hq | exact Hs1 | exact Hd1]. }
    destruct Hv as [v Hv].
    unfold bind at 1 2.
    destruct (nfq_handle_packet env h msgs (Z.pos n) s1) as [[a | |] s2];
      simpl in Hv; try discriminate.
    apply IH; [exact Hd2 | exact Hk].
Qed.

(** A crash in the bridge takes the receive loop down with it: a buffer
    whose first notification has no header, received with the flag unset,
    ends [Run_loop] in [Crashed] whatever the rest of the script is. *)
Lemma Run_loop_crashes_on_missing_header h fd n m msgs qh async script s :
  stop (snd (recv fd sizeof_buf 0 (mk_recv_step (RecvData n (m :: msgs)) async) s)) = 0 ->
  find_qh h (msg_queue m) = Some qh ->
  attr_packet_hdr (msg_data m) = None ->
  fst (Run_loop env h fd (mk_recv_step (RecvData n (m :: msgs)) async :: script) s)
  = Crashed.
Proof.
  intros Hs Hq Hh. rewrite Run_loop_cons. cbv zeta. rewrite Hs.
  cbn [rs_reply reply_rv reply_msgs].
  change (negb (Z.pos n =? 0) && (Z.pos n >=? 0) && negb (0 =? 1)) with true.
  cbv iota.
  set (s1 := snd (recv fd sizeof_buf 0 (mk_recv_step (RecvData n (m :: msgs)) async) s)).
  assert (Hc : fst (nfq_handle_packet env h (m :: msgs) (Z.pos n) s1) = Crashed).
  { unfold nfq_handle_packet. unfold bind at 1. unfold log. cbv beta iota.
    apply dispatch_no_header with qh; assumption. }
  unfold bind at 1.
  destruct (nfq_handle_packet env h (m :: msgs) (Z.pos n) s1) as [[a | |] s2];
    simpl in Hc; try discriminate.
  reflexivity.
Qed.

End Receive.

(** * The claims *)

(** C1.  With the stop flag unset, [nf_callback] calls [go_callback] exactly
    once for a notification that carries a header, before it returns: with
    the packet id of the header converted from network to host byte order
    by [ntohl], the payload bytes, the payload length, the binding index
    [idx] whose token the binding was created with, and the queue handle.
    Besides the two accessors it makes no other call, so it issues no
    verdict, and it returns 0. *)
Theorem nf_callback_dispatches_once
    (env : environment) (qh : nfq_q_handle) (nfa : nfq_data) (cb_func : voidptr)
    (hdr : nfqnl_msg_packet_hdr) (idx : Z) (s : State) :
  stop s = 0 ->
  attr_packet_hdr nfa = Some hdr ->
  0 <= idx < 2 ^ 32 ->
  cb_func = uintptr_to_voidptr (to_uintptr (host_model env) idx) ->
  let a := {| ga_id := ntohl (host_endian env)
                         (load_u32 (host_endian env) (packet_id hdr));
              ga_data := attr_payload nfa;
              ga_len := match attr_payload nfa with
                        | Some bytes => Z.of_nat (length bytes)
                        | None => -1
                        end;
              ga_idx := idx;
              ga_qh := qh |} in
  let s' := snd (nf_callback env qh nfa cb_func s) in
  fst (nf_callback env qh nfa cb_func s) = Done 0 /\
  ga_id a = be32_value (packet_id hdr) /\
  trace s' = trace s ++ [EvGetMsgPacketHdr nfa; EvGetPayload nfa; EvGoCallback a] /\
  go_calls (trace s') = go_calls (trace s) ++ [a] /\
  verdicts (trace s') = verdicts (trace s).
Proof.
  intros Hstop Hhdr Hidx Hcb a s'.
  destruct (nf_callback_running env qh nfa cb_func hdr s Hstop Hhdr) as [Hd Ht].
  assert (Ha : bridge_args env qh nfa cb_func hdr = a).
  { unfold bridge_args, a. rewrite ntohl_load. rewrite Hcb.
    rewrite index_of_token_round_trip by assumption. reflexivity. }
  rewrite Ha in Ht. fold s' in Ht.
  split; [exact Hd |].
  split; [apply ntohl_load |].
  split; [exact Ht |].
  rewrite Ht. split.
  - rewrite go_calls_app. reflexivity.
  - rewrite verdicts_app. simpl. apply app_nil_r.
Qed.

Lemma nf_callback_dispatches_once_witness :
  stop initial_state = 0 /\
  attr_packet_hdr nfa42 = Some hdr42 /\
  0 <= 7 < 2 ^ 32 /\
  7 = uintptr_to_voidptr (to_uintptr (host_model quiet_env) 7) /\
  fst (nf_callback quiet_env qh7 nfa42 7 initial_state) = Done 0 /\
  go_calls (trace (snd (nf_callback quiet_env qh7 nfa42 7 initial_state)))
  = [ {| ga_id := 42; ga_data := Some payload42; ga_len := 4;
         ga_idx := 7; ga_qh := qh7 |} ].
Proof.
  assert (H0 : stop initial_state = 0) by reflexivity.
  assert (H1 : attr_packet_hdr nfa42 = Some hdr42) by reflexivity.
  assert (H2 : 0 <= 7 < 2 ^ 32) by lia.
  assert (H3 : 7 = uintptr_to_voidptr (to_uintptr (host_model quiet_env) 7))
    by reflexivity.
  destruct (nf_callback_dispatches_once quiet_env qh7 nfa42 7 hdr42 7 initial_state
              H0 H1 H2 H3) as (Hd & _ & _ & Hc & _).
  split; [exact H0 |]. split; [exact H1 |]. split; [exact H2 |].
  split; [exact H3 |]. split; [exact Hd | exact Hc].
Defined.

(** [nf_callback] crashes exactly when it runs with the stop flag unset on a
    notification without a header: it dereferences the [NULL] that
    [nfq_get_msg_packet_hdr] returned.  In that case [go_callback] is not
    called, and the decode loop goes down with it, so the notifications that
    follow in the buffer are not dispatched either. *)
Theorem missing_header_is_fatal
    (env : environment) (h : nfq_handle) (qh : nfq_q_handle) (cb_func : voidptr)
    (m : nfq_msg) (msgs : list nfq_msg) (s : State)
    (qh' : nfq_q_handle) (nfa' : nfq_data) (cb' : voidptr) (s' : State) :
  stop s = 0 ->
  attr_packet_hdr (msg_data m) = None ->
  find_qh h (msg_queue m) = Some qh ->
  (fst (nf_callback env qh (msg_data m) cb_func s) = Crashed /\
   go_calls (trace (snd (nf_callback env qh (msg_data m) cb_func s)))
   = go_calls (trace s)) /\
  (fst (dispatch env h (m :: msgs) s) = Crashed /\
   go_calls (trace (snd (dispatch env h (m :: msgs) s))) = go_calls (trace s)) /\
  (fst (nf_callback env qh' nfa' cb' s') = Crashed <->
   stop s' = 0 /\ attr_packet_hdr nfa' = None).
Proof.
  intros Hstop Hhdr Hq.
  destruct (nf_callback_no_header env qh (msg_data m) cb_func s Hstop Hhdr) as [H1 H2].
  destruct (dispatch_no_header env h m msgs qh s Hstop Hq Hhdr) as [H3 H4].
  repeat split.
  - exact H1.
  - rewrite H2, go_calls_app. simpl. apply app_nil_r.
  - exact H3.
  - rewrite H4, go_calls_app. simpl. apply app_nil_r.
  - apply (nf_callback_crash_only env qh' nfa' cb' s' H).
  - apply (nf_callback_crash_only env qh' nfa' cb' s' H).
  - intros [E1 E2]. apply (nf_callback_no_header env qh' nfa' cb' s' E1 E2).
Qed.

Lemma missing_header_is_fatal_witness :
  stop initial_state = 0 /\
  attr_packet_hdr (msg_data (mk_msg 0 nfa_no_hdr)) = None /\
  find_qh [qh7] (msg_queue (mk_msg 0 nfa_no_hdr)) = Some qh7 /\
  fst (dispatch quiet_env [qh7] [mk_msg 0 nfa_no_hdr; msg42] initial_state) = Crashed /\
  go_calls (trace (snd (dispatch quiet_env [qh7] [mk_msg 0 nfa_no_hdr; msg42]
                          initial_state))) = [] /\
  (fst (nf_callback quiet_env qh7 nfa42 7 initial_state) = Crashed <->
   stop initial_state = 0 /\ attr_packet_hdr nfa42 = None).
Proof.
  assert (H0 : stop initial_state = 0) by reflexivity.
  assert (H1 : attr_packet_hdr (msg_data (mk_msg 0 nfa_no_hdr)) = None) by reflexivity.
  assert (H2 : find_qh [qh7] (msg_queue (mk_msg 0 nfa_no_hdr)) = Some qh7) by reflexivity.
  destruct (missing_header_is_fatal quiet_env [qh7] qh7 7 (mk_msg 0 nfa_no_hdr) [msg42]
              initial_state qh7 nfa42 7 initial_state H0 H1 H2)
    as (_ & (Hc & Hg) & Hiff).
  split; [exact H0 |]. split; [exact H1 |]. split; [exact H2 |].
  split; [exact Hc |]. split; [exact Hg | exact Hiff].
Defined.

(** C2.  The code at a notification without a header, received with the
    stop flag unset on a bound queue: lines 53-54 read [ph->packet_id]
    through the [NULL] that [nfq_get_msg_packet_hdr] returned, with no test
    in between.  [nf_callback] does not return an error to the decode loop:
    it crashes, and [Run] crashes with it.  [go_callback] is not called, and
    the header accessor is the last call the process makes, so neither the
    rest of the buffer nor any later buffer is processed and [Run] returns
    nothing to its caller. *)
Theorem missing_header_crashes_Run
    (env : environment) (h : nfq_handle) (fd : Z) (n : positive) (m : nfq_msg)
    (msgs : list nfq_msg) (script : list recv_step) (qh : nfq_q_handle) (s : State) :
  stop s = 0 ->
  find_qh h (msg_queue m) = Some qh ->
  attr_packet_hdr (msg_data m) = None ->
  let run := Run env h fd (mk_recv_step (RecvData n (m :: msgs)) false :: script) s in
  fst (nf_callback env qh (msg_data m) (qh_data qh) s) = Crashed /\
  fst run = Crashed /\
  (forall v, fst run <> Done v) /\
  trace (snd run)
  = trace s ++ [EvSetsockopt fd SOL_NETLINK NETLINK_NO_ENOBUFS 1 sizeof_int;
                EvRecv fd sizeof_buf 0; EvHandlePacket (Z.pos n);
                EvGetMsgPacketHdr (msg_data m)] /\
  go_calls (trace (snd run)) = go_calls (trace s).
Proof.
  intros Hs Hq Hh run.
  set (r := mk_recv_step (RecvData n (m :: msgs)) false).
  set (s0 := snd (setsockopt env fd SOL_NETLINK NETLINK_NO_ENOBUFS 1 sizeof_int s)).
  set (s1 := snd (recv fd sizeof_buf 0 r s0)).
  assert (Hs1 : stop s1 = 0).
  { unfold s1, s0. rewrite recv_stop, setsockopt_stop. exact Hs. }
  assert (Ht1 : trace s1
                = trace s ++ [EvSetsockopt fd SOL_NETLINK NETLINK_NO_ENOBUFS 1 sizeof_int;
                              EvRecv fd sizeof_buf 0]).
  { unfold s1, s0. rewrite recv_trace, setsockopt_trace, <- app_assoc. reflexivity. }
  set (s1' := {| stop := stop s1; errno := errno s1;
                 trace := trace s1 ++ [EvHandlePacket (Z.pos n)] |}).
  destruct (dispatch_no_header env h m msgs qh s1' Hs1 Hq Hh) as [Hc Ht].
  assert (Hrun : exists s2, run = (Crashed, s2) /\
                 trace s2 = trace s1' ++ [EvGetMsgPacketHdr (msg_data m)]).
  { unfold run. rewrite Run_unfold. fold s0. rewrite Run_loop_cons. cbv zeta.
    fold r. fold s1. rewrite Hs1.
    change (negb (reply_rv (rs_reply r) =? 0) && (reply_rv (rs_reply r) >=? 0)
            && negb (0 =? 1)) with true.
    cbv iota. unfold bind at 1. unfold nfq_handle_packet. unfold bind at 1.
    unfold log at 1. cbv beta iota.
    change (reply_msgs (rs_reply r)) with (m :: msgs).
    change (reply_rv (rs_reply r)) with (Z.pos n). fold s1'.
    destruct (dispatch env h (m :: msgs) s1') as [[a | |] s2];
      simpl in Hc; try discriminate.
    exists s2. split; [reflexivity | exact Ht]. }
  destruct Hrun as (s2 & Erun & Htr0).
  assert (Hf : fst run = Crashed) by (rewrite Erun; reflexivity).
  assert (Htr : trace (snd run) = trace s1' ++ [EvGetMsgPacketHdr (msg_data m)])
    by (rewrite Erun; exact Htr0).
  assert (Hfull : trace (snd run)
                  = trace s ++ [EvSetsockopt fd SOL_NETLINK NETLINK_NO_ENOBUFS 1 sizeof_int;
                                EvRecv fd sizeof_buf 0; EvHandlePacket (Z.pos n);
                                EvGetMsgPacketHdr (msg_data m)]).
  { rewrite Htr. unfold s1'. cbn [trace]. rewrite Ht1, <- !app_assoc. reflexivity. }
  split; [apply (nf_callback_no_header env qh (msg_data m) (qh_data qh) s Hs Hh) |].
  split; [exact Hf |].
  split; [intros v Hv; rewrite Hf in Hv; discriminate |].
  split; [exact Hfull |].
  rewrite Hfull, go_calls_app. simpl. apply app_nil_r.
Qed.

Lemma missing_header_crashes_Run_witness :
  stop initial_state = 0 /\
  find_qh [qh7] (msg_queue msg_no_hdr) = Some qh7 /\
  attr_packet_hdr (msg_data msg_no_hdr) = None /\
  fst (Run quiet_env [qh7] 3
         [mk_recv_step (RecvData 8 [msg_no_hdr; msg42]) false; step_data42; step_closed]
         initial_state) = Crashed /\
  go_calls (trace (snd (Run quiet_env [qh7] 3
                          [mk_recv_step (RecvData 8 [msg_no_hdr; msg42]) false;
                           step_data42; step_closed] initial_state))) = [].
Proof.
  assert (H0 : stop initial_state = 0) by reflexivity.
  assert (H1 : find_qh [qh7] (msg_queue msg_no_hdr) = Some qh7) by reflexivity.
  assert (H2 : attr_packet_hdr (msg_data msg_no_hdr) = None) by reflexivity.
  destruct (missing_header_crashes_Run quiet_env [qh7] 3 8 msg_no_hdr [msg42]
              [step_data42; step_closed] qh7 initial_state H0 H1 H2)
    as (_ & Hc & _ & _ & Hg).
  split; [exact H0 |]. split; [exact H1 |]. split; [exact H2 |].
  split; [exact Hc | exact Hg].
Defined.

(** C3.  The token [CreateQueue] registers for a 32-bit index [idx] reads
    back as [idx] in [nf_callback].  So once queue [queue] is bound with
    [idx], a notification delivered on that queue reaches [go_callback] with
    [idx] and the new handle, and in any buffer, however the queues are
    interleaved in it, each call carries the index of the binding of its
    own queue. *)
Theorem binding_index_round_trip
    (env : environment) (h : nfq_handle) (queue idx : Z) (s : State)
    (nfa : nfq_data) (hdr : nfqnl_msg_packet_hdr) (s1 : State)
    (msgs : list nfq_msg) (s2 : State) :
  0 <= idx < 2 ^ 32 ->
  find_qh h queue = None ->
  bind_reply env queue = None ->
  stop s1 = 0 ->
  attr_packet_hdr nfa = Some hdr ->
  let qh := {| qh_id := queue;
               qh_data := uintptr_to_voidptr (to_uintptr (host_model env) idx) |} in
  fst (CreateQueue env h queue idx s) = Done (qh :: h, Some qh) /\
  index_of_token (host_model env) (qh_data qh) = idx /\
  go_calls (trace (snd (dispatch env (qh :: h) [mk_msg queue nfa] s1)))
  = go_calls (trace s1)
    ++ [ {| ga_id := be32_value (packet_id hdr);
            ga_data := attr_payload nfa;
            ga_len := match attr_payload nfa with
                      | Some bytes => Z.of_nat (length bytes)
                      | None => -1
                      end;
            ga_idx := idx;
            ga_qh := qh |} ] /\
  exists evs,
    trace (snd (dispatch env (qh :: h) msgs s2)) = trace s2 ++ evs /\
    Forall (routed (host_model env) h queue idx qh) (go_calls evs).
Proof.
  intros Hidx Hfree Hbind Hstop Hhdr qh.
  assert (Hrt : index_of_token (host_model env) (qh_data qh) = idx)
    by (apply index_of_token_round_trip; exact Hidx).
  assert (Hfind : find_qh (qh :: h) queue = Some qh)
    by (simpl; rewrite Z.eqb_refl; reflexivity).
  split; [| split; [exact Hrt | split]].
  - unfold CreateQueue, nfq_create_queue, bind, log. simpl.
    rewrite Hfree, Hbind. reflexivity.
  - rewrite (dispatch_one env (qh :: h) (mk_msg queue nfa) [] qh hdr s1 Hstop Hfind Hhdr).
    simpl dispatch. unfold ret. simpl snd at 1.
    destruct (nf_callback_running env qh nfa (qh_data qh) hdr s1 Hstop Hhdr) as [_ Ht].
    change (uintptr_to_voidptr (to_uintptr (host_model env) idx)) with (qh_data qh).
    change (msg_data (mk_msg queue nfa)) with nfa.
    rewrite Ht, go_calls_app.
    unfold bridge_args. rewrite Hrt. reflexivity.
  - destruct (dispatch_routed env (qh :: h) msgs s2) as [evs [He Hf]].
    exists evs. split; [exact He |].
    eapply Forall_impl; [| exact Hf].
    intros a [Ha1 Ha2]. simpl in Ha1. split.
    + intros Eq. rewrite Eq in Ha1. simpl in Ha1. rewrite Z.eqb_refl in Ha1.
      injection Ha1 as Ha1. split; [symmetry; exact Ha1 |].
      rewrite Ha2, <- Ha1. exact Hrt.
    + intros Ne. split; [| exact Ha2].
      simpl in Ha1.
      destruct (Z.eqb_spec queue (qh_id (ga_qh a))) as [E | E]; [| exact Ha1].
      symmetry in E. contradiction.
Qed.

Lemma binding_index_round_trip_witness :
  0 <= 7 < 2 ^ 32 /\
  find_qh [qh9] 0 = None /\
  bind_reply quiet_env 0 = None /\
  stop initial_state = 0 /\
  attr_packet_hdr nfa42 = Some hdr42 /\
  fst (CreateQueue quiet_env [qh9] 0 7 initial_state) = Done ([qh7; qh9], Some qh7) /\
  go_calls (trace (snd (dispatch quiet_env [qh7; qh9] [msg42] initial_state))) = [call42].
Proof.
  assert (H0 : 0 <= 7 < 2 ^ 32) by lia.
  assert (H1 : find_qh [qh9] 0 = None) by reflexivity.
  assert (H2 : bind_reply quiet_env 0 = None) by reflexivity.
  assert (H3 : stop initial_state = 0) by reflexivity.
  assert (H4 : attr_packet_hdr nfa42 = Some hdr42) by reflexivity.
  destruct (binding_index_round_trip quiet_env [qh9] 0 7 initial_state nfa42 hdr42
              initial_state [msg42; mk_msg 1 nfa42; msg42] initial_state
              H0 H1 H2 H3 H4) as (Hc & _ & Hg & _).
  split; [exact H0 |]. split; [exact H1 |]. split; [exact H2 |].
  split; [exact H3 |]. split; [exact H4 |]. split; [exact Hc | exact Hg].
Defined.

(** C5.  With the stop flag set [nf_callback] returns a negative result and
    leaves the state as it was: no accessor is called, [go_callback] is not
    called.  The decode loop ends the current buffer on that result, and with
    the flag at 1 the receive loop hands no further buffer to the decode
    loop. *)
Theorem nf_callback_refuses_when_stopped
    (env : environment) (h : nfq_handle) (fd : Z) (qh : nfq_q_handle)
    (nfa : nfq_data) (cb_func : voidptr) (m : nfq_msg) (msgs : list nfq_msg)
    (script : list recv_step) (s : State) :
  stop s <> 0 ->
  find_qh h (msg_queue m) = Some qh ->
  (exists r, r < 0 /\ nf_callback env qh nfa cb_func s = (Done r, s)) /\
  (exists r, r < 0 /\ dispatch env h (m :: msgs) s = (Done r, s)) /\
  (stop s = 1 ->
   handled (trace (snd (Run_loop env h fd script s))) = handled (trace s) /\
   go_calls (trace (snd (Run_loop env h fd script s))) = go_calls (trace s)).
Proof.
  intros Hstop Hq. split; [| split].
  - exists (-1). split; [lia | apply nf_callback_stopped; exact Hstop].
  - exists (-1). split; [lia | apply (dispatch_stopped env h m msgs qh s Hstop Hq)].
  - intros H1. rewrite (Run_loop_stopped_trace env h fd script s H1).
    rewrite handled_app, go_calls_app. simpl. rewrite !app_nil_r. split; reflexivity.
Qed.

Lemma nf_callback_refuses_when_stopped_witness :
  stop stopped_state <> 0 /\
  find_qh [qh7] (msg_queue msg42) = Some qh7 /\
  stop stopped_state = 1 /\
  (exists r, r < 0 /\ nf_callback quiet_env qh7 nfa42 7 stopped_state = (Done r, stopped_state)) /\
  go_calls (trace (snd (Run_loop quiet_env [qh7] 3 [step_data42; step_data42] stopped_state)))
  = go_calls (trace stopped_state).
Proof.
  assert (H0 : stop stopped_state <> 0) by (simpl; discriminate).
  assert (H1 : find_qh [qh7] (msg_queue msg42) = Some qh7) by reflexivity.
  assert (H2 : stop stopped_state = 1) by reflexivity.
  destruct (nf_callback_refuses_when_stopped quiet_env [qh7] 3 qh7 nfa42 7 msg42 [msg42]
              [step_data42; step_data42] stopped_state H0 H1) as (Hc & _ & Hr).
  split; [exact H0 |]. split; [exact H1 |]. split; [exact H2 |].
  split; [exact Hc | exact (proj2 (Hr H2))].
Defined.

(** C10.  With the stop flag unset, whatever [nfq_get_payload] returns goes
    to [go_callback] as it is: the result as the length, the pointer it
    stored as the data.  The bridge does not look at the result and returns
    0; when the payload attribute is missing the call is made with length
    -1 and a [NULL] pointer. *)
Theorem payload_length_passed_unchecked
    (env : environment) (qh : nfq_q_handle) (nfa : nfq_data) (cb_func : voidptr)
    (hdr : nfqnl_msg_packet_hdr) (s : State) :
  stop s = 0 ->
  attr_packet_hdr nfa = Some hdr ->
  exists len buffer,
    fst (nfq_get_payload nfa NULL (snd (nfq_get_msg_packet_hdr nfa s)))
    = Done (len, buffer) /\
    fst (nf_callback env qh nfa cb_func s) = Done 0 /\
    go_calls (trace (snd (nf_callback env qh nfa cb_func s)))
    = go_calls (trace s)
      ++ [ {| ga_id := be32_value (packet_id hdr);
              ga_data := buffer;
              ga_len := len;
              ga_idx := index_of_token (host_model env) cb_func;
              ga_qh := qh |} ] /\
    (attr_payload nfa = None -> len = -1 /\ len < 0 /\ buffer = NULL).
Proof.
  intros Hstop Hhdr.
  destruct (nf_callback_running env qh nfa cb_func hdr s Hstop Hhdr) as [Hd Ht].
  exists (ga_len (bridge_args env qh nfa cb_func hdr)),
         (ga_data (bridge_args env qh nfa cb_func hdr)).
  split; [| split; [exact Hd | split]].
  - unfold nfq_get_payload, nfq_get_msg_packet_hdr, bind, log. simpl.
    destruct (attr_payload nfa); reflexivity.
  - rewrite Ht, go_calls_app. reflexivity.
  - intros Hp. simpl. rewrite Hp. split; [reflexivity | split; [lia | reflexivity]].
Qed.

Lemma payload_length_passed_unchecked_witness :
  stop initial_state = 0 /\
  attr_packet_hdr nfa_no_payload = Some hdr42 /\
  attr_payload nfa_no_payload = None /\
  go_calls (trace (snd (nf_callback quiet_env qh7 nfa_no_payload 7 initial_state)))
  = [ {| ga_id := 42; ga_data := NULL; ga_len := -1; ga_idx := 7; ga_qh := qh7 |} ].
Proof.
  assert (H0 : stop initial_state = 0) by reflexivity.
  assert (H1 : attr_packet_hdr nfa_no_payload = Some hdr42) by reflexivity.
  assert (H2 : attr_payload nfa_no_payload = None) by reflexivity.
  destruct (payload_length_passed_unchecked quiet_env qh7 nfa_no_payload 7 hdr42
              initial_state H0 H1) as (len & buffer & _ & _ & Hg & Hn).
  destruct (Hn H2) as (El & _ & Eb).
  rewrite El, Eb in Hg.
  split; [exact H0 |]. split; [exact H1 |]. split; [exact H2 | exact Hg].
Defined.



(** C6, as amended.  With the stop flag at 1 when [Run] is entered,
    [go_callback] is never called and no buffer reaches the decode loop.
    [Run] stays blocked until its first [recv] returns and then returns the
    errno of that moment: the code of the receive error if the receive
    failed, else the code of the [setsockopt] error if that call failed,
    else the errno [Run] was entered with. *)
Theorem stop_before_first_packet
    (env : environment) (h : nfq_handle) (fd : Z) (r : recv_step)
    (script : list recv_step) (s : State) :
  stop s = 1 ->
  let s' := snd (Run env h fd (r :: script) s) in
  fst (Run env h fd (r :: script) s) = Done (errno s') /\
  errno s' = match rs_reply r with
             | RecvError e => Z.pos e
             | _ => match setsockopt_reply env with
                    | Some e => e
                    | None => errno s
                    end
             end /\
  go_calls (trace s') = go_calls (trace s) /\
  handled (trace s') = handled (trace s) /\
  fst (Run env h fd [] s) = Blocked /\
  go_calls (trace (snd (Run env h fd [] s))) = go_calls (trace s).
Proof.
  intros Hs s'.
  set (s0 := snd (setsockopt env fd SOL_NETLINK NETLINK_NO_ENOBUFS 1 sizeof_int s)).
  assert (Hs0 : stop s0 = 1) by (unfold s0; rewrite setsockopt_stop; exact Hs).
  assert (Ht0 : trace s0 = trace s
                  ++ [EvSetsockopt fd SOL_NETLINK NETLINK_NO_ENOBUFS 1 sizeof_int])
    by apply setsockopt_trace.
  assert (Hrun : Run env h fd (r :: script) s
                 = (Done (errno (snd (recv fd sizeof_buf 0 r s0))),
                    snd (recv fd sizeof_buf 0 r s0))).
  { rewrite Run_unfold. fold s0. apply Run_loop_stopped. exact Hs0. }
  unfold s'. rewrite Hrun. simpl fst. simpl snd.
  split; [reflexivity |].
  split.
  { rewrite recv_errno. unfold s0. rewrite setsockopt_errno. reflexivity. }
  rewrite recv_trace, Ht0, !go_calls_app, !handled_app. simpl. rewrite !app_nil_r.
  split; [reflexivity |]. split; [reflexivity |].
  rewrite Run_unfold. fold s0. simpl.
  rewrite Ht0, !go_calls_app. simpl. rewrite !app_nil_r.
  split; reflexivity.
Qed.

Lemma stop_before_first_packet_witness :
  stop stopped_state = 1 /\
  fst (Run quiet_env [qh7] 3 [step_data42; step_data42] stopped_state) = Done 0 /\
  go_calls (trace (snd (Run quiet_env [qh7] 3 [step_data42; step_data42] stopped_state)))
  = [].
Proof.
  assert (H0 : stop stopped_state = 1) by reflexivity.
  destruct (stop_before_first_packet quiet_env [qh7] 3 step_data42 [step_data42]
              stopped_state H0) as (Hd & He & Hg & _).
  rewrite He in Hd.
  split; [exact H0 |]. split; [exact Hd | exact Hg].
Defined.

(** C6 as stated fails: a process whose fail-open request was rejected and
    which then requested the stop enters [Run] with the flag at 1 and errno
    at [EOPNOTSUPP]; [Run] makes no [go_callback] call but returns 95. *)
Lemma stop_before_first_packet_counterexample :
  stop stale_errno_state = 1 /\
  go_calls (trace (snd (Run no_failopen_env [qh7] 3 [step_data42] stale_errno_state)))
  = [] /\
  fst (Run no_failopen_env [qh7] 3 [step_data42] stale_errno_state) = Done 95 /\
  fst (Run no_failopen_env [qh7] 3 [step_data42] stale_errno_state) <> Done 0.
Proof.
  split; [reflexivity |]. split; [reflexivity |]. split; [reflexivity |].
  simpl. discriminate.
Qed.

(** C7.  [stop_reading_packets] leaves the flag at 1, and calling it again
    changes nothing.  Every operation of the header, whatever the outside
    world does meanwhile, leaves the flag either as it found it or at 1:
    none sets it back to 0. *)
Theorem stop_flag_only_raised
    (env : environment) (h : nfq_handle) (fd : Z) (script : list recv_step)
    (qh : nfq_q_handle) (nfa : nfq_data) (cb_func : voidptr) (queue idx : Z)
    (s : State) :
  stop (snd (stop_reading_packets s)) = 1 /\
  snd (stop_reading_packets (snd (stop_reading_packets s)))
  = snd (stop_reading_packets s) /\
  stop_only_raised s (snd (Run env h fd script s)) /\
  stop_only_raised s (snd (nf_callback env qh nfa cb_func s)) /\
  stop_only_raised s (snd (CreateQueue env h queue idx s)) /\
  stop_only_raised s (snd (SetQueueFailOpen env qh s)) /\
  stop_only_raised s (snd (stop_reading_packets s)).
Proof.
  split; [reflexivity |]. split; [reflexivity |].
  split; [apply raised_Run |].
  split; [apply raised_nf_callback |].
  split; [apply raised_CreateQueue |].
  split; [apply raised_SetQueueFailOpen | apply raised_stop_reading_packets].
Qed.

(** C8.  The first call [Run] makes is [setsockopt] with [SOL_NETLINK] and
    [NETLINK_NO_ENOBUFS] and the value 1 on its socket; its first [recv]
    comes right after it, and every other call later still. *)
Theorem Run_configures_socket_first
    (env : environment) (h : nfq_handle) (fd : Z) (script : list recv_step)
    (s : State) :
  exists rest,
    trace (snd (Run env h fd script s))
    = trace s
      ++ EvSetsockopt fd SOL_NETLINK NETLINK_NO_ENOBUFS 1 sizeof_int
         :: EvRecv fd sizeof_buf 0 :: rest.
Proof.
  rewrite Run_unfold.
  destruct (Run_loop_first_recv env h fd script
              (snd (setsockopt env fd SOL_NETLINK NETLINK_NO_ENOBUFS 1 sizeof_int s)))
    as [rest Hr].
  exists rest. rewrite Hr, setsockopt_trace, <- app_assoc. reflexivity.
Qed.



(** * Further properties of the header *)

(** ** What a computation adds to the trace *)

Lemma emits_refl (P : event -> Prop) s : emits P s s.
Proof. exists []. split; [symmetry; apply app_nil_r | constructor]. Qed.

Lemma emits_trans (P : event -> Prop) a b c :
  emits P a b -> emits P b c -> emits P a c.
Proof.
  intros [e1 [H1 F1]] [e2 [H2 F2]]. exists (e1 ++ e2). split.
  - rewrite H2, H1. symmetry. apply app_assoc.
  - apply Forall_app. split; assumption.
Qed.

Lemma emits_weaken (P Q : event -> Prop) s s' :
  (forall ev, P ev -> Q ev) -> emits P s s' -> emits Q s s'.
Proof.
  intros HPQ [evs [He Hf]]. exists evs. split; [exact He |].
  eapply Forall_impl; [exact HPQ | exact Hf].
Qed.

Lemma emits_log (P : event -> Prop) ev : P ev -> steps (emits P) (log ev).
Proof. intros H s. exists [ev]. split; [reflexivity | constructor; [exact H | constructor]]. Qed.

Lemma emits_set_errno (P : event -> Prop) e : steps (emits P) (set_errno e).
Proof. intros s. exists []. split; [symmetry; apply app_nil_r | constructor]. Qed.

Lemma emits_stop_reading_packets (P : event -> Prop) :
  steps (emits P) stop_reading_packets.
Proof. intros s. exists []. split; [symmetry; apply app_nil_r | constructor]. Qed.

Lemma bridge_event_no_handover evs : Forall bridge_event evs -> handled evs = [].
Proof.
  induction 1 as [| ev evs Hev _ IH]; [reflexivity |].
  destruct ev; simpl in *; try contradiction; exact IH.
Qed.

Lemma bridge_event_is_loop_event fd ev : bridge_event ev -> loop_event fd ev.
Proof. destruct ev; simpl; try contradiction; intros H; exact H. Qed.

Section BridgeTrace.

Variable env : environment.

Lemma emits_go_callback id data len idx qh :
  steps (emits bridge_event) (go_callback env id data len idx qh).
Proof.
  unfold go_callback.
  apply steps_bind; [apply emits_trans | intros s; apply emits_refl |].
  intros tr.
  apply steps_bind; [apply emits_trans | apply emits_log; exact I |].
  intros _.
  apply steps_bind; [apply emits_trans | |].
  - destruct (ge_stop _); [apply emits_stop_reading_packets |].
    intros s; apply emits_refl.
  - intros _. destruct (ge_errno _); [apply emits_set_errno |].
    intros s; apply emits_refl.
Qed.

Lemma emits_nf_callback qh nfa cb_func :
  steps (emits bridge_event) (nf_callback env qh nfa cb_func).
Proof.
  unfold nf_callback.
  apply steps_bind; [apply emits_trans | intros s; apply emits_refl |].
  intros st. destruct (negb (st =? 0)); [intros s; apply emits_refl |].
  cbv zeta.
  apply steps_bind; [apply emits_trans | |].
  - unfold nfq_get_msg_packet_hdr.
    apply steps_bind; [apply emits_trans | apply emits_log; exact I |].
    intros _ s. apply emits_refl.
  - intros [hdr |]; [| intros s; apply emits_refl].
    apply steps_bind; [apply emits_trans | |].
    + unfold nfq_get_payload.
      apply steps_bind; [apply emits_trans | apply emits_log; exact I |].
      intros _. destruct (attr_payload nfa); intros s; apply emits_refl.
    + intros [len buffer].
      apply steps_bind; [apply emits_trans | apply emits_go_callback |].
      intros _ s. apply emits_refl.
Qed.

Lemma emits_dispatch h msgs : steps (emits bridge_event) (dispatch env h msgs).
Proof.
  induction msgs as [| m msgs IH]; simpl.
  - intros s. apply emits_refl.
  - destruct (find_qh h (msg_queue m)) as [qh |]; [| intros s; apply emits_refl].
    apply steps_bind; [apply emits_trans | apply emits_nf_callback |].
    intros r. destruct (r <? 0); [intros s; apply emits_refl | exact IH].
Qed.

(** The decode loop hands no buffer over itself. *)
Lemma dispatch_handled h msgs s :
  handled (trace (snd (dispatch env h msgs s))) = handled (trace s).
Proof.
  destruct (emits_dispatch h msgs s) as [evs [He Hf]].
  rewrite He, handled_app, (bridge_event_no_handover evs Hf). apply app_nil_r.
Qed.

(** The state [nf_callback] returns in when it runs. *)
Lemma nf_callback_running_state qh nfa cb_func hdr s :
  stop s = 0 ->
  attr_packet_hdr nfa = Some hdr ->
  nf_callback env qh nfa cb_func s
  = (Done 0, after_call env nfa (bridge_args env qh nfa cb_func hdr) s).
Proof.
  intros Hstop Hhdr.
  unfold nf_callback, bind, get_stop. rewrite Hstop. simpl.
  rewrite Hhdr. unfold nfq_get_payload, bind, log. simpl.
  rewrite ntohl_load.
  unfold after_call, bridge_args, index_of_token.
  destruct (attr_payload nfa) as [bytes |]; simpl;
    unfold go_callback, bind, get_trace, log, stop_reading_packets, set_stop, ret; simpl;
    rewrite <- !app_assoc; simpl; unfold NULL;
    match goal with |- context [go_reaction env ?t ?a] =>
      destruct (go_reaction env t a) as [[|] [e|]] end; simpl;
    rewrite ?Hstop; reflexivity.
Qed.

(** Once the flag is set the decode loop leaves the state alone, whatever the
    buffer holds. *)
Lemma dispatch_stopped_any h msgs s :
  stop s <> 0 -> exists r, dispatch env h msgs s = (Done r, s).
Proof.
  intros Hs. destruct msgs as [| m msgs].
  - exists 0. reflexivity.
  - destruct (find_qh h (msg_queue m)) as [qh |] eqn:Hq.
    + exists (-1). apply (dispatch_stopped env h m msgs qh s Hs Hq).
    + exists (- ENODEV). simpl. rewrite Hq. reflexivity.
Qed.

(** The decode loop does not crash on notifications that carry a header. *)
Lemma dispatch_no_crash h msgs :
  forallb has_header msgs = true ->
  forall s, exists v, fst (dispatch env h msgs s) = Done v.
Proof.
  induction msgs as [| m msgs IH]; intros Hm s.
  - exists 0. reflexivity.
  - simpl in Hm. apply andb_prop in Hm. destruct Hm as [Hm1 Hm2].
    destruct (Z.eq_dec (stop s) 0) as [E | E].
    + destruct (find_qh h (msg_queue m)) as [qh |] eqn:Hq.
      * unfold has_header in Hm1.
        destruct (attr_packet_hdr (msg_data m)) as [hdr |] eqn:Hh; [| discriminate].
        rewrite (dispatch_one env h m msgs qh hdr s E Hq Hh).
        apply IH. exact Hm2.
      * simpl. rewrite Hq. eexists. reflexivity.
    + destruct (dispatch_stopped_any h (m :: msgs) s E) as [r Hr].
      exists r. rewrite Hr. reflexivity.
Qed.

(** With the flag unset and a Go side that requests no stop, a buffer of
    deliverable notifications is dispatched to the end. *)
Lemma dispatch_all h msgs :
  go_never_stops env ->
  forallb (deliverable h) msgs = true ->
  forall s, stop s = 0 ->
    fst (dispatch env h msgs s) = Done 0 /\
    stop (snd (dispatch env h msgs s)) = 0 /\
    go_calls (trace (snd (dispatch env h msgs s)))
    = go_calls (trace s) ++ flat_map (call_of env h) msgs.
Proof.
  intros Hq. induction msgs as [| m msgs IH]; intros Hm s Hs.
  - simpl. rewrite app_nil_r. auto.
  - simpl in Hm. apply andb_prop in Hm. destruct Hm as [Hm1 Hm2].
    unfold deliverable, has_header in Hm1.
    destruct (find_qh h (msg_queue m)) as [qh |] eqn:Hf; [| discriminate].
    destruct (attr_packet_hdr (msg_data m)) as [hdr |] eqn:Hh; [| discriminate].
    rewrite (dispatch_one env h m msgs qh hdr s Hs Hf Hh).
    assert (Hs1 : stop (snd (nf_callback env qh (msg_data m) (qh_data qh) s)) = 0).
    { rewrite (kept_nf_callback env Hq qh (msg_data m) (qh_data qh) s). exact Hs. }
    destruct (IH Hm2 _ Hs1) as (H1 & H2 & H3).
    split; [exact H1 |]. split; [exact H2 |].
    rewrite H3.
    destruct (nf_callback_running env qh (msg_data m) (qh_data qh) hdr s Hs Hh) as [_ Ht].
    rewrite Ht, go_calls_app. simpl flat_map.
    unfold call_of at 2. rewrite Hf, Hh.
    rewrite <- app_assoc. reflexivity.
Qed.

Lemma calls_of_deliverable h msgs :
  forallb (deliverable h) msgs = true ->
  length (flat_map (call_of env h) msgs) = length msgs.
Proof.
  induction msgs as [| m msgs IH]; intros Hm; [reflexivity |].
  simpl in Hm. apply andb_prop in Hm. destruct Hm as [Hm1 Hm2].
  simpl. rewrite length_app, (IH Hm2).
  unfold deliverable, has_header in Hm1. unfold call_of.
  destruct (find_qh h (msg_queue m)); [| discriminate].
  destruct (attr_packet_hdr (msg_data m)); [reflexivity | discriminate].
Qed.

End BridgeTrace.

(** ** The receive loop, buffer after buffer *)

Section LoopTrace.

Variable env : environment.

Lemma nfq_handle_packet_handled h msgs len s :
  handled (trace (snd (nfq_handle_packet env h msgs len s)))
  = handled (trace s) ++ [EvHandlePacket len].
Proof.
  unfold nfq_handle_packet, bind, log. cbv beta iota.
  rewrite dispatch_handled. simpl. apply handled_app.
Qed.

Lemma nfq_handle_packet_no_crash h msgs len s :
  forallb has_header msgs = true ->
  exists v, fst (nfq_handle_packet env h msgs len s) = Done v.
Proof.
  intros Hm. unfold nfq_handle_packet, bind, log. cbv beta iota.
  apply dispatch_no_crash. exact Hm.
Qed.

Lemma loop_condition_data r st :
  negb (reply_rv (rs_reply r) =? 0) && (reply_rv (rs_reply r) >=? 0) && negb (st =? 1)
  = true ->
  is_data r = true /\ 0 < reply_rv (rs_reply r) /\ st <> 1.
Proof.
  unfold is_data. destruct (rs_reply r) as [n msgs | | e]; simpl; try discriminate.
  destruct (Z.eqb_spec st 1); simpl; try discriminate.
  intros _. split; [reflexivity |]. split; [lia | assumption].
Qed.

Lemma loop_condition_no_data r st :
  is_data r = false ->
  negb (reply_rv (rs_reply r) =? 0) && (reply_rv (rs_reply r) >=? 0) && negb (st =? 1)
  = false.
Proof.
  unfold is_data. destruct (rs_reply r) as [n msgs | | e]; simpl; try discriminate;
    reflexivity.
Qed.

Lemma loop_condition_running r :
  is_data r = true ->
  negb (reply_rv (rs_reply r) =? 0) && (reply_rv (rs_reply r) >=? 0) && negb (0 =? 1)
  = true.
Proof.
  unfold is_data. destruct (rs_reply r) as [n msgs | | e]; simpl; try discriminate;
    reflexivity.
Qed.

Lemma emits_Run_loop h fd script :
  steps (emits (loop_event fd)) (Run_loop env h fd script).
Proof.
  induction script as [| r script IH]; intros s.
  - exists [EvRecv fd sizeof_buf 0]. split; [reflexivity |].
    constructor; [simpl; auto | constructor].
  - rewrite Run_loop_cons. cbv zeta.
    assert (Hr : emits (loop_event fd) s (snd (recv fd sizeof_buf 0 r s))).
    { exists [EvRecv fd sizeof_buf 0]. split; [apply recv_trace |].
      constructor; [simpl; auto | constructor]. }
    destruct (negb (reply_rv (rs_reply r) =? 0) && (reply_rv (rs_reply r) >=? 0)
              && negb (stop (snd (recv fd sizeof_buf 0 r s)) =? 1)) eqn:E.
    + apply loop_condition_data in E. destruct E as (_ & Hpos & _).
      eapply emits_trans; [exact Hr |].
      apply steps_bind; [apply emits_trans | | intros _; exact IH].
      unfold nfq_handle_packet.
      apply steps_bind; [apply emits_trans | apply emits_log; exact Hpos |].
      intros _ s0. eapply emits_weaken; [apply bridge_event_is_loop_event |].
      apply emits_dispatch.
    + exact Hr.
Qed.

(** The buffers handed to the decode loop are the first buffers received,
    each once, in the order received. *)
Lemma Run_loop_handover h fd script :
  forall s, exists k,
    handled (trace (snd (Run_loop env h fd script s)))
    = handled (trace s) ++ map handover (firstn k script) /\
    forallb is_data (firstn k script) = true.
Proof.
  induction script as [| r script IH]; intros s.
  - exists O. simpl. rewrite handled_app. simpl. split; reflexivity.
  - rewrite Run_loop_cons. cbv zeta.
    assert (Hr : handled (trace (snd (recv fd sizeof_buf 0 r s))) = handled (trace s)).
    { rewrite recv_trace, handled_app. simpl. apply app_nil_r. }
    destruct (negb (reply_rv (rs_reply r) =? 0) && (reply_rv (rs_reply r) >=? 0)
              && negb (stop (snd (recv fd sizeof_buf 0 r s)) =? 1)) eqn:E.
    + apply loop_condition_data in E. destruct E as (Hd & _ & _).
      pose proof (nfq_handle_packet_handled h (reply_msgs (rs_reply r))
                    (reply_rv (rs_reply r)) (snd (recv fd sizeof_buf 0 r s))) as Hh.
      rewrite Hr in Hh.
      unfold bind at 1.
      destruct (nfq_handle_packet env h (reply_msgs (rs_reply r))
                  (reply_rv (rs_reply r)) (snd (recv fd sizeof_buf 0 r s)))
        as [[a | |] s2]; simpl in Hh.
      * destruct (IH s2) as [k [Hk Hf]]. exists (S k). simpl firstn. simpl.
        rewrite Hk, Hh, <- app_assoc, Hd, Hf. split; reflexivity.
      * exists 1%nat. simpl. rewrite Hh, Hd. split; reflexivity.
      * exists 1%nat. simpl. rewrite Hh, Hd. split; reflexivity.
    + exists O. simpl. rewrite Hr, app_nil_r. split; reflexivity.
Qed.

Lemma Run_loop_no_crash h fd script :
  forallb headers_ok script = true ->
  forall s, fst (Run_loop env h fd script s) <> Crashed.
Proof.
  induction script as [| r script IH]; intros Hh s.
  - simpl. discriminate.
  - simpl in Hh. apply andb_prop in Hh. destruct Hh as [Hh1 Hh2].
    rewrite Run_loop_cons. cbv zeta.
    destruct (negb (reply_rv (rs_reply r) =? 0) && (reply_rv (rs_reply r) >=? 0)
              && negb (stop (snd (recv fd sizeof_buf 0 r s)) =? 1)).
    + destruct (nfq_handle_packet_no_crash h (reply_msgs (rs_reply r))
                  (reply_rv (rs_reply r)) (snd (recv fd sizeof_buf 0 r s)) Hh1) as [v Hv].
      unfold bind at 1.
      destruct (nfq_handle_packet env h (reply_msgs (rs_reply r))
                  (reply_rv (rs_reply r)) (snd (recv fd sizeof_buf 0 r s)))
        as [[a | |] s2]; simpl in Hv; try discriminate.
      apply IH. exact Hh2.
    + simpl. discriminate.
Qed.

Lemma Run_loop_returns h fd pre r post :
  forallb headers_ok pre = true ->
  is_data r = false ->
  forall s, exists v, fst (Run_loop env h fd (pre ++ r :: post) s) = Done v.
Proof.
  intros Hh Hr. induction pre as [| p pre IH]; intros s.
  - simpl app. rewrite Run_loop_cons. cbv zeta.
    rewrite (loop_condition_no_data r _ Hr). eexists. reflexivity.
  - simpl in Hh. apply andb_prop in Hh. destruct Hh as [Hh1 Hh2].
    simpl app. rewrite Run_loop_cons. cbv zeta.
    destruct (negb (reply_rv (rs_reply p) =? 0) && (reply_rv (rs_reply p) >=? 0)
              && negb (stop (snd (recv fd sizeof_buf 0 p s)) =? 1)).
    + destruct (nfq_handle_packet_no_crash h (reply_msgs (rs_reply p))
                  (reply_rv (rs_reply p)) (snd (recv fd sizeof_buf 0 p s)) Hh1) as [v Hv].
      unfold bind at 1.
      destruct (nfq_handle_packet env h (reply_msgs (rs_reply p))
                  (reply_rv (rs_reply p)) (snd (recv fd sizeof_buf 0 p s)))
        as [[a | |] s2]; simpl in Hv; try discriminate.
      apply (IH Hh2).
    + eexists. reflexivity.
Qed.

(** With the flag unset and nobody requesting a stop, the loop works through
    a buffer of deliverable notifications and goes on to the next [recv]. *)
Lemma Run_loop_deliver_step h fd r script s :
  go_never_stops env ->
  no_async_stop r ->
  deliverable_step h r = true ->
  stop s = 0 ->
  exists s2,
    Run_loop env h fd (r :: script) s = Run_loop env h fd script s2 /\
    stop s2 = 0 /\
    go_calls (trace s2) = go_calls (trace s) ++ flat_map (call_of env h) (step_msgs r) /\
    handled (trace s2) = handled (trace s) ++ [handover r].
Proof.
  intros Hq Ha Hd Hs.
  unfold deliverable_step in Hd. apply andb_prop in Hd. destruct Hd as [Hd1 Hd2].
  set (s1 := snd (recv fd sizeof_buf 0 r s)).
  assert (Hs1 : stop s1 = 0).
  { unfold s1. rewrite recv_stop. unfold no_async_stop in Ha. rewrite Ha. exact Hs. }
  assert (Ht1 : trace s1 = trace s ++ [EvRecv fd sizeof_buf 0]) by apply recv_trace.
  set (s1' := snd (log (EvHandlePacket (reply_rv (rs_reply r))) s1)).
  destruct (dispatch_all env h (step_msgs r) Hq Hd2 s1' Hs1) as (H1 & H2 & H3).
  exists (snd (dispatch env h (step_msgs r) s1')).
  split; [| split; [exact H2 | split]].
  - rewrite Run_loop_cons. cbv zeta. fold s1. rewrite Hs1.
    rewrite (loop_condition_running r Hd1).
    unfold bind at 1. unfold nfq_handle_packet. unfold bind at 1. unfold log at 1.
    cbv beta iota. fold (step_msgs r).
    change {| stop := stop s1; errno := errno s1;
              trace := trace s1 ++ [EvHandlePacket (reply_rv (rs_reply r))] |}
      with s1'.
    destruct (dispatch env h (step_msgs r) s1') as [[a | |] s2];
      simpl in H1; try discriminate.
    reflexivity.
  - rewrite H3. unfold s1'. simpl trace. rewrite Ht1, !go_calls_app. simpl.
    rewrite !app_nil_r. reflexivity.
  - rewrite dispatch_handled. unfold s1'. simpl trace.
    rewrite Ht1, !handled_app. simpl. rewrite app_nil_r. reflexivity.
Qed.

End LoopTrace.

Section Delivery.

Variable env : environment.

Lemma Run_loop_deliver_prefix h fd pre rest :
  go_never_stops env ->
  Forall no_async_stop pre ->
  forallb (deliverable_step h) pre = true ->
  forall s, stop s = 0 ->
  exists s2,
    Run_loop env h fd (pre ++ rest) s = Run_loop env h fd rest s2 /\
    stop s2 = 0 /\
    go_calls (trace s2) = go_calls (trace s) ++ calls_of env h pre /\
    handled (trace s2) = handled (trace s) ++ map handover pre.
Proof.
  intros Hq Ha. induction Ha as [| r pre Hr Ha IH]; intros Hd s Hs.
  - exists s. simpl. rewrite !app_nil_r. auto.
  - simpl in Hd. apply andb_prop in Hd. destruct Hd as [Hd1 Hd2].
    destruct (Run_loop_deliver_step env h fd r (pre ++ rest) s Hq Hr Hd1 Hs)
      as (s1 & E1 & Hs1 & Hc1 & Hh1).
    destruct (IH Hd2 s1 Hs1) as (s2 & E2 & Hs2 & Hc2 & Hh2).
    exists s2. split; [| split; [exact Hs2 | split]].
    + simpl app. rewrite E1. exact E2.
    + rewrite Hc2, Hc1, <- app_assoc. reflexivity.
    + rewrite Hh2, Hh1, <- app_assoc. reflexivity.
Qed.

Lemma Run_loop_last h fd r post s :
  is_data r = false ->
  Run_loop env h fd (r :: post) s
  = (Done (errno (snd (recv fd sizeof_buf 0 r s))), snd (recv fd sizeof_buf 0 r s)).
Proof.
  intros Hr. rewrite Run_loop_cons. cbv zeta.
  rewrite (loop_condition_no_data r _ Hr). reflexivity.
Qed.

End Delivery.

(** * Further theorems *)

Lemma byte_val_injective (a b : byte) : byte_val a = byte_val b -> a = b.
Proof.
  unfold byte_val. intros H. apply N2Z.inj in H.
  assert (E : Some a = Some b).
  { rewrite <- (Byte.of_to_N a), <- (Byte.of_to_N b), H. reflexivity. }
  injection E as E. exact E.
Qed.

Lemma be32_value_injective (w w' : be32) : be32_value w = be32_value w' -> w = w'.
Proof.
  destruct w as [a b c d], w' as [a' b' c' d']. unfold be32_value. simpl.
  pose proof (byte_val_range a). pose proof (byte_val_range b).
  pose proof (byte_val_range c). pose proof (byte_val_range d).
  pose proof (byte_val_range a'). pose proof (byte_val_range b').
  pose proof (byte_val_range c'). pose proof (byte_val_range d').
  change (2 ^ 24) with 16777216. change (2 ^ 16) with 65536. change (2 ^ 8) with 256.
  intros E.
  assert (Ea : byte_val a = byte_val a') by lia.
  assert (Eb : byte_val b = byte_val b') by lia.
  assert (Ec : byte_val c = byte_val c') by lia.
  assert (Ed : byte_val d = byte_val d') by lia.
  apply byte_val_injective in Ea, Eb, Ec, Ed. subst. reflexivity.
Qed.

(** X1.  The packet id line 54 computes, [ntohl(ph->packet_id)], is the same
    on a little-endian and on a big-endian host, fits 32 bits, and differs
    for headers whose id fields differ. *)
Theorem packet_id_host_independent (e1 e2 : endianness) (w w' : be32) :
  ntohl e1 (load_u32 e1 w) = ntohl e2 (load_u32 e2 w) /\
  0 <= ntohl e1 (load_u32 e1 w) < 2 ^ 32 /\
  (ntohl e1 (load_u32 e1 w) = ntohl e2 (load_u32 e2 w') -> w = w').
Proof.
  rewrite !ntohl_load. split; [reflexivity |]. split.
  - unfold be32_value.
    pose proof (byte_val_range (w0 w)). pose proof (byte_val_range (w1 w)).
    pose proof (byte_val_range (w2 w)). pose proof (byte_val_range (w3 w)).
    change (2 ^ 24) with 16777216. change (2 ^ 16) with 65536.
    change (2 ^ 8) with 256. change (2 ^ 32) with 4294967296. lia.
  - apply be32_value_injective.
Qed.

Lemma packet_id_host_independent_witness :
  ntohl LittleEndian (load_u32 LittleEndian id42)
  = ntohl BigEndian (load_u32 BigEndian id42) /\
  id42 = id42.
Proof.
  destruct (packet_id_host_independent LittleEndian BigEndian id42 id42)
    as (H1 & _ & H3).
  split; [exact H1 | exact (H3 H1)].
Defined.

(** X2.  With the stop flag unset and a Go side that requests no stop, a
    buffer of [k] notifications, each on a bound queue and with a header,
    leads to exactly [k] calls of [go_callback], one per notification in the
    order of the buffer, each with the handle and the index of its own
    queue; the flag is still unset afterwards. *)
Theorem buffer_dispatched_in_order
    (env : environment) (h : nfq_handle) (msgs : list nfq_msg) (len : Z) (s : State) :
  go_never_stops env ->
  forallb (deliverable h) msgs = true ->
  stop s = 0 ->
  let s' := snd (nfq_handle_packet env h msgs len s) in
  fst (nfq_handle_packet env h msgs len s) = Done 0 /\
  go_calls (trace s') = go_calls (trace s) ++ flat_map (call_of env h) msgs /\
  length (flat_map (call_of env h) msgs) = length msgs /\
  stop s' = 0.
Proof.
  intros Hq Hd Hs s'. unfold s', nfq_handle_packet, bind, log. cbv beta iota.
  destruct (dispatch_all env h msgs Hq Hd
              {| stop := stop s; errno := errno s;
                 trace := trace s ++ [EvHandlePacket len] |} Hs) as (H1 & H2 & H3).
  split; [exact H1 |]. split; [| split; [apply calls_of_deliverable; exact Hd | exact H2]].
  rewrite H3. simpl trace. rewrite go_calls_app. simpl. rewrite app_nil_r. reflexivity.
Qed.

Lemma buffer_dispatched_in_order_witness :
  go_never_stops quiet_env /\
  forallb (deliverable [qh7; qh9]) [msg42; msg_on_1; msg42] = true /\
  stop initial_state = 0 /\
  go_calls (trace (snd (nfq_handle_packet quiet_env [qh7; qh9]
                          [msg42; msg_on_1; msg42] 96 initial_state)))
  = [ call42;
      {| ga_id := 42; ga_data := NULL; ga_len := -1; ga_idx := 9; ga_qh := qh9 |};
      call42 ].
Proof.
  assert (H0 : go_never_stops quiet_env) by (intros tr a; reflexivity).
  assert (H1 : forallb (deliverable [qh7; qh9]) [msg42; msg_on_1; msg42] = true)
    by reflexivity.
  assert (H2 : stop initial_state = 0) by reflexivity.
  destruct (buffer_dispatched_in_order quiet_env [qh7; qh9] [msg42; msg_on_1; msg42] 96
              initial_state H0 H1 H2) as (_ & Hc & _).
  split; [exact H0 |]. split; [exact H1 |]. split; [exact H2 | exact Hc].
Defined.

(** X3.  With the stop flag set the bridge is safe on any buffer: the stop
    test of line 43 comes before the header is touched, so the decode loop
    returns without a crash, without a call and with the state as it was,
    also when notifications lack a header or belong to no binding. *)
Theorem stopped_bridge_touches_nothing
    (env : environment) (h : nfq_handle) (msgs : list nfq_msg) (s : State) :
  stop s <> 0 ->
  exists r, dispatch env h msgs s = (Done r, s).
Proof. apply dispatch_stopped_any. Qed.

Lemma stopped_bridge_touches_nothing_witness :
  stop stopped_state <> 0 /\
  exists r, dispatch quiet_env [qh7] [msg_no_hdr; msg_unbound; msg42] stopped_state
            = (Done r, stopped_state).
Proof.
  assert (H0 : stop stopped_state <> 0) by (simpl; discriminate).
  split; [exact H0 |].
  exact (stopped_bridge_touches_nothing quiet_env [qh7]
           [msg_no_hdr; msg_unbound; msg42] stopped_state H0).
Defined.



(** X5.  As long as every notification carries a header, [Run] cannot crash,
    whatever the kernel sends and whatever the Go side and other threads
    do. *)
Theorem Run_safe_with_headers
    (env : environment) (h : nfq_handle) (fd : Z) (script : list recv_step)
    (s : State) :
  forallb headers_ok script = true ->
  fst (Run env h fd script s) <> Crashed.
Proof.
  intros Hh. rewrite Run_unfold. apply Run_loop_no_crash. exact Hh.
Qed.

Lemma Run_safe_with_headers_witness :
  forallb headers_ok [step_data42; mk_recv_step (RecvData 4 [msg_unbound]) true] = true /\
  fst (Run stopping_env [qh7] 3
         [step_data42; mk_recv_step (RecvData 4 [msg_unbound]) true] initial_state)
  <> Crashed.
Proof.
  assert (H0 : forallb headers_ok
                 [step_data42; mk_recv_step (RecvData 4 [msg_unbound]) true] = true)
    by reflexivity.
  split; [exact H0 |].
  exact (Run_safe_with_headers stopping_env [qh7] 3
           [step_data42; mk_recv_step (RecvData 4 [msg_unbound]) true] initial_state H0).
Defined.

(** X6.  [Run] returns at the first [recv] that reports a close or an error,
    if not before: when the buffers received until then carry headers, it
    returns, and with the errno of that moment, whatever else happens. *)
Theorem Run_returns_on_close_or_error
    (env : environment) (h : nfq_handle) (fd : Z) (pre : list recv_step)
    (r : recv_step) (post : list recv_step) (s : State) :
  forallb headers_ok pre = true ->
  is_data r = false ->
  fst (Run env h fd (pre ++ r :: post) s)
  = Done (errno (snd (Run env h fd (pre ++ r :: post) s))).
Proof.
  intros Hh Hr. rewrite Run_unfold.
  destruct (Run_loop_returns env h fd pre r post Hh Hr
              (snd (setsockopt env fd SOL_NETLINK NETLINK_NO_ENOBUFS 1 sizeof_int s)))
    as [v Hv].
  destruct (Run_loop env h fd (pre ++ r :: post)
              (snd (setsockopt env fd SOL_NETLINK NETLINK_NO_ENOBUFS 1 sizeof_int s)))
    as [o s'] eqn:E.
  simpl in Hv. subst o. simpl.
  rewrite (Run_loop_returns_errno env h fd _ _ _ _ E). reflexivity.
Qed.

Lemma Run_returns_on_close_or_error_witness :
  forallb headers_ok [step_data42; step_data42] = true /\
  is_data step_enobufs = false /\
  fst (Run quiet_env [qh7] 3 [step_data42; step_data42; step_enobufs; step_data42]
         initial_state) = Done 105.
Proof.
  assert (H0 : forallb headers_ok [step_data42; step_data42] = true) by reflexivity.
  assert (H1 : is_data step_enobufs = false) by reflexivity.
  split; [exact H0 |]. split; [exact H1 |].
  exact (Run_returns_on_close_or_error quiet_env [qh7] 3 [step_data42; step_data42]
           step_enobufs [step_data42] initial_state H0 H1).
Defined.



(** X8.  [Run] has no exit of its own: with the stop flag unset and nobody
    requesting a stop, after any number of buffers of deliverable
    notifications it has handed all of them over and is waiting in [recv]
    again. *)
Theorem Run_keeps_receiving
    (env : environment) (h : nfq_handle) (fd : Z) (script : list recv_step)
    (s : State) :
  go_never_stops env ->
  Forall no_async_stop script ->
  forallb (deliverable_step h) script = true ->
  stop s = 0 ->
  let s' := snd (Run env h fd script s) in
  fst (Run env h fd script s) = Blocked /\
  stop s' = 0 /\
  go_calls (trace s') = go_calls (trace s) ++ calls_of env h script /\
  handled (trace s') = handled (trace s) ++ map handover script.
Proof.
  intros Hq Ha Hd Hs s'. unfold s'. rewrite Run_unfold.
  set (s0 := snd (setsockopt env fd SOL_NETLINK NETLINK_NO_ENOBUFS 1 sizeof_int s)).
  assert (Hs0 : stop s0 = 0) by (unfold s0; rewrite setsockopt_stop; exact Hs).
  assert (Ht0 : trace s0 = trace s
                  ++ [EvSetsockopt fd SOL_NETLINK NETLINK_NO_ENOBUFS 1 sizeof_int])
    by apply setsockopt_trace.
  destruct (Run_loop_deliver_prefix env h fd script [] Hq Ha Hd s0 Hs0)
    as (s2 & E & Hs2 & Hc & Hh).
  rewrite app_nil_r in E. rewrite E. simpl.
  split; [reflexivity |]. split; [exact Hs2 |].
  rewrite go_calls_app, handled_app, Hc, Hh, Ht0.
  rewrite go_calls_app, handled_app. simpl. rewrite !app_nil_r.
  split; reflexivity.
Qed.

Lemma Run_keeps_receiving_witness :
  go_never_stops quiet_env /\
  Forall no_async_stop [step_data42; step_data42] /\
  forallb (deliverable_step [qh7]) [step_data42; step_data42] = true /\
  stop initial_state = 0 /\
  fst (Run quiet_env [qh7] 3 [step_data42; step_data42] initial_state) = Blocked /\
  go_calls (trace (snd (Run quiet_env [qh7] 3 [step_data42; step_data42] initial_state)))
  = [call42; call42].
Proof.
  assert (H0 : go_never_stops quiet_env) by (intros tr a; reflexivity).
  assert (H1 : Forall no_async_stop [step_data42; step_data42]) by (repeat constructor).
  assert (H2 : forallb (deliverable_step [qh7]) [step_data42; step_data42] = true)
    by reflexivity.
  assert (H3 : stop initial_state = 0) by reflexivity.
  destruct (Run_keeps_receiving quiet_env [qh7] 3 [step_data42; step_data42]
              initial_state H0 H1 H2 H3) as (Hb & _ & Hc & _).
  split; [exact H0 |]. split; [exact H1 |]. split; [exact H2 |].
  split; [exact H3 |]. split; [exact Hb | exact Hc].
Defined.

(** X9.  [Run] keeps no buffer back and repeats none: whatever happens, the
    buffers it has handed to [nfq_handle_packet] are the first [k] it
    received, each once, in the order received and with the length [recv]
    returned, and all of them were successful receives. *)
Theorem Run_hands_over_in_order
    (env : environment) (h : nfq_handle) (fd : Z) (script : list recv_step)
    (s : State) :
  exists k,
    handled (trace (snd (Run env h fd script s)))
    = handled (trace s) ++ map handover (firstn k script) /\
    forallb is_data (firstn k script) = true.
Proof.
  rewrite Run_unfold.
  destruct (Run_loop_handover env h fd script
              (snd (setsockopt env fd SOL_NETLINK NETLINK_NO_ENOBUFS 1 sizeof_int s)))
    as [k [Hk Hf]].
  exists k. split; [| exact Hf].
  rewrite Hk, setsockopt_trace, handled_app. simpl. rewrite app_nil_r. reflexivity.
Qed.

(** X10.  After its one [setsockopt] call [Run] only receives on its own
    socket, with the 4096-byte buffer and no flags, hands over buffers of a
    positive length, and does what the bridge does.  It never configures the
    socket again, never creates a queue, sets queue flags or issues a
    verdict, and never hands over an empty buffer. *)
Theorem Run_event_profile
    (env : environment) (h : nfq_handle) (fd : Z) (script : list recv_step)
    (s : State) :
  exists evs,
    trace (snd (Run env h fd script s))
    = trace s ++ EvSetsockopt fd SOL_NETLINK NETLINK_NO_ENOBUFS 1 sizeof_int :: evs /\
    Forall (loop_event fd) evs.
Proof.
  rewrite Run_unfold.
  destruct (emits_Run_loop env h fd script
              (snd (setsockopt env fd SOL_NETLINK NETLINK_NO_ENOBUFS 1 sizeof_int s)))
    as [evs [He Hf]].
  exists evs. split; [| exact Hf].
  rewrite He, setsockopt_trace, <- app_assoc. reflexivity.
Qed.

(** X11.  [Run] does not look at the result of [setsockopt], and a [recv]
    that reports a close leaves errno alone: when the first [recv] returns 0,
    [Run] returns the code of the [setsockopt] failure if that call failed,
    and otherwise the errno it was entered with. *)
Theorem Run_close_returns_pending_errno
    (env : environment) (h : nfq_handle) (fd : Z) (r : recv_step)
    (script : list recv_step) (s : State) :
  rs_reply r = RecvClosed ->
  fst (Run env h fd (r :: script) s)
  = Done (match setsockopt_reply env with Some e => e | None => errno s end) /\
  trace (snd (Run env h fd (r :: script) s))
  = trace s ++ [EvSetsockopt fd SOL_NETLINK NETLINK_NO_ENOBUFS 1 sizeof_int;
                EvRecv fd sizeof_buf 0].
Proof.
  intros Hr. rewrite Run_unfold.
  assert (Hd : is_data r = false) by (unfold is_data; rewrite Hr; reflexivity).
  rewrite (Run_loop_last env h fd r script _ Hd). simpl fst. simpl snd.
  rewrite recv_errno, Hr, setsockopt_errno, recv_trace, setsockopt_trace, <- app_assoc.
  split; reflexivity.
Qed.

Lemma Run_close_returns_pending_errno_witness :
  rs_reply step_closed = RecvClosed /\
  fst (Run no_sockopt_env [qh7] 3 [step_closed; step_data42] initial_state) = Done 92.
Proof.
  assert (H0 : rs_reply step_closed = RecvClosed) by reflexivity.
  split; [exact H0 |].
  exact (proj1 (Run_close_returns_pending_errno no_sockopt_env [qh7] 3 step_closed
                  [step_data42] initial_state H0)).
Defined.

Lemma stop_boolean_raised s s' :
  stop_boolean s -> stop_only_raised s s' -> stop_boolean s'.
Proof. unfold stop_boolean, stop_only_raised. intros [H | H] [H' | H']; lia. Qed.

(** X12.  The flag only ever holds 0 or 1: every operation of the header
    keeps it so, whatever the outside world does.  Hence the two tests the
    code makes, [if (stop)] in [nf_callback] and [stop == 1] in [Run], agree
    on every state the program reaches. *)
Theorem stop_flag_stays_boolean
    (env : environment) (h : nfq_handle) (fd : Z) (script : list recv_step)
    (qh : nfq_q_handle) (nfa : nfq_data) (cb_func : voidptr) (queue idx : Z)
    (s : State) :
  stop_boolean s ->
  stop_boolean (snd (Run env h fd script s)) /\
  stop_boolean (snd (nf_callback env qh nfa cb_func s)) /\
  stop_boolean (snd (CreateQueue env h queue idx s)) /\
  stop_boolean (snd (SetQueueFailOpen env qh s)) /\
  stop_boolean (snd (stop_reading_packets s)) /\
  negb (stop (snd (Run env h fd script s)) =? 0)
  = (stop (snd (Run env h fd script s)) =? 1).
Proof.
  intros Hb.
  assert (HR : stop_boolean (snd (Run env h fd script s)))
    by (apply (stop_boolean_raised s); [exact Hb | apply raised_Run]).
  split; [exact HR |].
  split; [apply (stop_boolean_raised s); [exact Hb | apply raised_nf_callback] |].
  split; [apply (stop_boolean_raised s); [exact Hb | apply raised_CreateQueue] |].
  split; [apply (stop_boolean_raised s); [exact Hb | apply raised_SetQueueFailOpen] |].
  split; [right; reflexivity |].
  destruct HR as [E | E]; rewrite E; reflexivity.
Qed.

Lemma stop_flag_stays_boolean_witness :
  stop_boolean initial_state /\
  stop_boolean (snd (Run stopping_env [qh7] 3 [step_data42; step_data42] initial_state)).
Proof.
  assert (H0 : stop_boolean initial_state) by (left; reflexivity).
  split; [exact H0 |].
  exact (proj1 (stop_flag_stays_boolean stopping_env [qh7] 3 [step_data42; step_data42]
                  qh7 nfa42 7 0 7 initial_state H0)).
Defined.

(** X14.  A buffer that arrives together with a stop request is dropped: when
    the flag has been set while the loop was blocked in [recv], [Run_loop]
    returns the errno of that moment without handing the buffer to the
    decode loop, so none of its packets reaches [go_callback]. *)
Theorem buffer_dropped_on_stop
    (env : environment) (h : nfq_handle) (fd : Z) (r : recv_step)
    (script : list recv_step) (s : State) :
  rs_async_stop r = true ->
  let s' := snd (Run_loop env h fd (r :: script) s) in
  fst (Run_loop env h fd (r :: script) s) = Done (errno s') /\
  stop s' = 1 /\
  trace s' = trace s ++ [EvRecv fd sizeof_buf 0] /\
  go_calls (trace s') = go_calls (trace s) /\
  handled (trace s') = handled (trace s).
Proof.
  intros Ha s'.
  assert (Hs1 : stop (snd (recv fd sizeof_buf 0 r s)) = 1)
    by (rewrite recv_stop, Ha; reflexivity).
  assert (E : Run_loop env h fd (r :: script) s
              = (Done (errno (snd (recv fd sizeof_buf 0 r s))),
                 snd (recv fd sizeof_buf 0 r s))).
  { rewrite Run_loop_cons. cbv zeta. rewrite Hs1.
    simpl. rewrite andb_false_r. reflexivity. }
  unfold s'. rewrite E. simpl fst. simpl snd.
  split; [reflexivity |]. split; [exact Hs1 |].
  rewrite recv_trace, go_calls_app, handled_app. simpl. rewrite !app_nil_r.
  repeat split.
Qed.

Lemma buffer_dropped_on_stop_witness :
  rs_async_stop (mk_recv_step (RecvData 4 [msg42]) true) = true /\
  fst (Run_loop quiet_env [qh7] 3
         [mk_recv_step (RecvData 4 [msg42]) true; step_data42] initial_state) = Done 0 /\
  go_calls (trace (snd (Run_loop quiet_env [qh7] 3
                          [mk_recv_step (RecvData 4 [msg42]) true; step_data42]
                          initial_state))) = [].
Proof.
  assert (H0 : rs_async_stop (mk_recv_step (RecvData 4 [msg42]) true) = true)
    by reflexivity.
  destruct (buffer_dropped_on_stop quiet_env [qh7] 3
              (mk_recv_step (RecvData 4 [msg42]) true) [step_data42] initial_state H0)
    as (Hd & _ & _ & Hc & _).
  split; [exact H0 |]. split; [exact Hd | exact Hc].
Defined.
